(** * ZimManager: a shallow embedding of the archive content pipeline

    The development follows [ZIM-Manager-GUI.py], class [ZimManager]:
    namespace selection, mimetype resolution, text and bulk extraction from
    an open archive, and the temp-file/backup protocol of [create_zim_file].

    Part I embeds the Python runtime pieces the class relies on ([str]
    methods, the two regular expressions, the UTF-8 codec, exceptions and a
    file system) and then the methods themselves, in source order.
    Part II states and proves the properties. *)

From Stdlib Require Import ZArith NArith List String Ascii Bool Lia.
From stdpp Require Import base option list gmap.

Local Open Scope N_scope.

(* ===================================================================== *)
(** * Part I.  The model                                                  *)
(* ===================================================================== *)

(** ** Python values *)

(** A Python [str] is a sequence of Unicode code points; a code point is a
    natural number.  [bytes] is a sequence of octets. *)
Abbreviation char := N (only parsing).
Abbreviation str := (list N) (only parsing).
Abbreviation bytes := (list Byte.byte) (only parsing).

(** String literals of the source are written [lit "..."]: every character
    of the (ASCII) literal becomes its code point. *)
Definition lit (s : string) : str :=
  map N_of_ascii (list_ascii_of_string s).
Arguments lit s%_string : simpl never.

(** The exceptions the class can raise or let through. *)
Inductive exn : Type :=
  | ValueError (msg : str)
  | TypeError
  | UnicodeDecodeError
  | PermissionError
  | FileNotFoundError
  | FileExistsError
  | OSError
  | KeyError
  | RuntimeError (msg : str).

(** The outcome of a call: a value, or a raised exception. *)
Inductive result (A : Type) : Type :=
  | Ok (a : A)
  | Raise (e : exn).
Arguments Ok {A} a.
Arguments Raise {A} e.

Definition rbind {A B} (r : result A) (k : A -> result B) : result B :=
  match r with
  | Ok a => k a
  | Raise e => Raise e
  end.

(** ** [str] methods *)

Module Py.

Definition str_eqb (a b : str) : bool := bool_decide (a = b).

(** [s.startswith(p)] *)
Fixpoint startswith (s p : str) {struct p} : bool :=
  match p with
  | [] => true
  | c :: p' =>
      match s with
      | [] => false
      | d :: s' => (d =? c) && startswith s' p'
      end
  end.

(** [s.endswith(p)] *)
Definition endswith (s p : str) : bool :=
  startswith (rev s) (rev p).

(** [p in s] for strings: [p] occurs in [s] as a contiguous run. *)
Fixpoint contains (s p : str) : bool :=
  startswith s p ||
  match s with
  | [] => false
  | _ :: s' => contains s' p
  end.

(** [s.upper()].  The case table is the ASCII one: [a]..[z] go to
    [A]..[Z]; the model leaves every other code point as it is. *)
Definition upper_char (c : char) : char :=
  if (97 <=? c) && (c <=? 122) then c - 32 else c.
Definition upper (s : str) : str := map upper_char s.

(** [c.isspace()]: the code points [str.strip()] removes. *)
Definition isspace (c : char) : bool :=
  ((9 <=? c) && (c <=? 13)) || ((28 <=? c) && (c <=? 32))
  || (c =? 133) || (c =? 160) || (c =? 5760)
  || ((8192 <=? c) && (c <=? 8202))
  || (c =? 8232) || (c =? 8233) || (c =? 8239) || (c =? 8287)
  || (c =? 12288).

Fixpoint lstrip (s : str) : str :=
  match s with
  | [] => []
  | c :: s' => if isspace c then lstrip s' else s
  end.

(** [s.strip()] *)
Definition strip (s : str) : str := rev (lstrip (rev (lstrip s))).

(** [s.split(sep)[-1]] for a one-character separator: what follows the
    last [sep], or all of [s] when [sep] does not occur. *)
Fixpoint before_sep (sep : char) (s : str) : str :=
  match s with
  | [] => []
  | c :: s' => if c =? sep then [] else c :: before_sep sep s'
  end.
Definition split_last (sep : char) (s : str) : str :=
  rev (before_sep sep (rev s)).

(** [s.startswith(p)] where the argument may be [None]: the method
    raises [TypeError] unless it is given a [str]. *)
Definition startswith_arg (s : str) (p : option str) : result bool :=
  match p with
  | Some p => Ok (startswith s p)
  | None => Raise TypeError
  end.

(** *** [bytes.decode('utf-8', errors=...)]

    The decoder reads one code point at a time.  A byte that cannot
    start a sequence is an error of length one; a continuation byte that
    cannot follow is an error covering the bytes read before it, and
    decoding resumes at the offending byte; a sequence cut short by the
    end of the input is one error covering what is left.  On an error
    [strict] raises, [ignore] drops the bytes of the error and [replace]
    puts U+FFFD in their place. *)
Inductive errors : Type := Strict | Ignore | Replace.

Definition on_error (h : errors) (k : result str) : result str :=
  match h with
  | Strict => Raise UnicodeDecodeError
  | Ignore => k
  | Replace => rbind k (fun s => Ok (65533 :: s))
  end.

Definition emit (c : char) (k : result str) : result str :=
  rbind k (fun s => Ok (c :: s)).

Definition is_cont (b : N) : bool := (128 <=? b) && (b <? 192).

Fixpoint decode_utf8 (h : errors) (bs : bytes) : result str :=
  match bs with
  | [] => Ok []
  | x1 :: r1 =>
    let b1 := Byte.to_N x1 in
    if b1 <? 128 then emit b1 (decode_utf8 h r1)
    else if b1 <? 194 then on_error h (decode_utf8 h r1)
    else if b1 <? 224 then
      match r1 with
      | [] => on_error h (Ok [])
      | x2 :: r2 =>
        let b2 := Byte.to_N x2 in
        if is_cont b2
        then emit ((b1 - 192) * 64 + (b2 - 128)) (decode_utf8 h r2)
        else on_error h (decode_utf8 h r1)
      end
    else if b1 <? 240 then
      match r1 with
      | [] => on_error h (Ok [])
      | x2 :: r2 =>
        let b2 := Byte.to_N x2 in
        if negb (is_cont b2)
           || (if b2 <? 160 then b1 =? 224 else b1 =? 237)
        then on_error h (decode_utf8 h r1)
        else
          match r2 with
          | [] => on_error h (Ok [])
          | x3 :: r3 =>
            let b3 := Byte.to_N x3 in
            if is_cont b3
            then emit ((b1 - 224) * 4096 + (b2 - 128) * 64 + (b3 - 128))
                      (decode_utf8 h r3)
            else on_error h (decode_utf8 h r2)
          end
      end
    else if b1 <? 245 then
      match r1 with
      | [] => on_error h (Ok [])
      | x2 :: r2 =>
        let b2 := Byte.to_N x2 in
        if negb (is_cont b2)
           || (if b2 <? 144 then b1 =? 240 else b1 =? 244)
        then on_error h (decode_utf8 h r1)
        else
          match r2 with
          | [] => on_error h (Ok [])
          | x3 :: r3 =>
            let b3 := Byte.to_N x3 in
            if negb (is_cont b3) then on_error h (decode_utf8 h r2)
            else
              match r3 with
              | [] => on_error h (Ok [])
              | x4 :: r4 =>
                let b4 := Byte.to_N x4 in
                if is_cont b4
                then emit ((b1 - 240) * 262144 + (b2 - 128) * 4096
                           + (b3 - 128) * 64 + (b4 - 128))
                          (decode_utf8 h r4)
                else on_error h (decode_utf8 h r3)
              end
          end
      end
    else on_error h (decode_utf8 h r1)
  end.

(** *** The regular expressions of the class *)

(** The first occurrence of [pat] in [s]: what precedes it and what
    follows it. *)
Fixpoint split_first (pat s : str) : option (str * str) :=
  if startswith s pat then Some ([], drop (length pat) s)
  else match s with
       | [] => None
       | c :: s' =>
           match split_first pat s' with
           | Some (a, b) => Some (c :: a, b)
           | None => None
           end
       end.

(** [re.search(r"<body.*?>(.*?)</body>", s, re.S)], giving [group(1)].
    With [re.S] the dot matches every character, and both stars are
    lazy: the match starts at the first [<body], the opening tag ends at
    the first [>] after it, and the group runs to the first [</body>]
    after that.  A later start or a later [>] cannot succeed where the
    first fails, since what has to follow is only searched further to
    the right. *)
Definition re_search_body (s : str) : option str :=
  match split_first (lit "<body") s with
  | None => None
  | Some (_, r1) =>
      match split_first (lit ">") r1 with
      | None => None
      | Some (_, r2) =>
          match split_first (lit "</body>") r2 with
          | None => None
          | Some (inner, _) => Some inner
          end
      end
  end.

(** [re.sub('<[^<]+?>', '', s)].  A match is a [<], then one or more
    characters other than [<], as few as possible, then a [>].
    [close_at r] is the number of characters of [r] up to and including
    the first [>], provided no [<] comes before it; [tag_len] is the
    length of a match without its leading [<]. *)
Fixpoint close_at (r : str) : option nat :=
  match r with
  | [] => None
  | c :: r' =>
      if c =? 62 then Some 1%nat
      else if c =? 60 then None
      else S <$> close_at r'
  end.

Definition tag_len (rest : str) : option nat :=
  match rest with
  | [] => None
  | x :: r => if x =? 60 then None else S <$> close_at r
  end.

(** The scan goes left to right; [skip] counts the characters of the
    current match still to be dropped.  Where no match starts the
    character is copied and the scan moves on by one. *)
Fixpoint re_sub_tags (skip : nat) (s : str) : str :=
  match s with
  | [] => []
  | c :: s' =>
      match skip with
      | S k => re_sub_tags k s'
      | O =>
          if c =? 60 then
            match tag_len s' with
            | Some n => re_sub_tags n s'
            | None => c :: re_sub_tags 0 s'
            end
          else c :: re_sub_tags 0 s'
      end
  end.

Definition strip_tags (s : str) : str := re_sub_tags 0 s.

End Py.

(** ** Mimetype resolution *)

(** [ZimManager._determine_mimetype] *)
Definition _determine_mimetype (path : str) : str :=
  if Py.startswith path (lit "A/") then lit "text/html"
  else if Py.endswith path (lit ".html") || Py.endswith path (lit ".htm")
       then lit "text/html"
  else if Py.endswith path (lit ".png") then lit "image/png"
  else if Py.endswith path (lit ".jpg") || Py.endswith path (lit ".jpeg")
       then lit "image/jpeg"
  else if Py.endswith path (lit ".css") then lit "text/css"
  else if Py.endswith path (lit ".js") then lit "application/javascript"
  else if Py.endswith path (lit ".pdf") then lit "application/pdf"
  else if Py.endswith path (lit ".zip") then lit "application/zip"
  else if Py.endswith path (lit ".mp4") then lit "video/mp4"
  else if Py.endswith path (lit ".webm") then lit "video/webm"
  else if Py.endswith path (lit ".ogg") then lit "video/ogg"
  else lit "application/octet-stream".

(** [ZimManager.MyItem]: the item handed to the archive writer.  The
    class also answers [get_hints] with [FRONT_ARTICLE: True] for every
    item, and [get_contentprovider] with the file [_fpath] when there is
    one and the string [_content] otherwise. *)
Module MyItem.

Record t : Type := mk {
  _title : str;
  _path : str;
  _content : str;
  _fpath : option str
}.

Definition get_path (self : t) : str := _path self.
Definition get_title (self : t) : str := _title self.

Definition get_mimetype (self : t) : str :=
  if Py.endswith (_path self) (lit ".html")
     || Py.endswith (_path self) (lit ".htm")
       then lit "text/html"
  else if Py.endswith (_path self) (lit ".png") then lit "image/png"
  else if Py.endswith (_path self) (lit ".jpg")
          || Py.endswith (_path self) (lit ".jpeg")
       then lit "image/jpeg"
  else if Py.endswith (_path self) (lit ".css") then lit "text/css"
  else if Py.endswith (_path self) (lit ".js")
       then lit "application/javascript"
  else lit "application/octet-stream".

Definition front_article (self : t) : bool := true.

End MyItem.

(** ** File name sanitisation *)

(** The character class of [_sanitize_filename], as code points:
    less-than, greater-than, colon, double quote, slash, backslash,
    vertical bar, question mark, asterisk. *)
Definition special_chars : str :=
  [60; 62; 58; 34; 47; 92; 124; 63; 42].

Definition is_special (c : char) : bool := existsb (N.eqb c) special_chars.

(** [ZimManager._sanitize_filename]: [re.sub] with a one-character class
    rewrites the string character by character. *)
Definition _sanitize_filename (filename : str) : str :=
  map (fun c => if is_special c then 95 else c) filename.


(** ** The archive *)

(** Modelled from the spec: the read capability of the archive engine
    (libzim's [Archive] and [Entry], which the class imports).  An
    archive is its sequence of entries: [entry_count] is the length of
    the sequence and [_get_entry_by_id i] its [i]-th entry, so the loops
    [for i in range(entry_count)] of the class run over the sequence in
    order.  An entry has a path, a title and, through
    [get_item().content.tobytes()], its content bytes. *)
Record Entry : Type := mkEntry {
  path : str;
  title : str;
  content : bytes
}.

Abbreviation Archive := (list Entry) (only parsing).

(** [Archive.get_entry_by_path] of libzim: the entry with the path;
    the call raises [KeyError] when the archive has none. *)
Definition get_entry_by_path (zim : Archive) (p : str) : result Entry :=
  match find (fun e => Py.str_eqb (path e) p) zim with
  | Some entry => Ok entry
  | None => Raise KeyError
  end.

Definition nl : str := [10].

(** ** Namespaces *)

(** [ZimManager.namespace_descriptions] *)
Definition namespace_descriptions : gmap (list N) (list N) :=
  list_to_map
    [ (lit "A", lit "Article");
      (lit "B", lit "Deleted articles");
      (lit "C", lit "Category entries");
      (lit "I", lit "Images");
      (lit "M", lit "Metadata");
      (lit "S", lit "Stylesheets");
      (lit "F", lit "Other files");
      (lit "V", lit "Videos");
      (lit "X", lit "Special entries") ].

(** [ZimManager.get_namespace_description] *)
Definition get_namespace_description (namespace : str) : str :=
  default (lit "Unknown (" ++ namespace ++ lit ")")
          (namespace_descriptions !! namespace).

(** [ZimManager.view_all_namespaces]: the loop body, then the loop.  An
    entry with an empty path has no namespace character and adds
    nothing. *)
Definition view_namespace_step
    (namespaces : gmap (list N) (list N)) (entry : Entry)
    : gmap (list N) (list N) :=
  match path entry with
  | [] => namespaces
  | c :: _ =>
      match namespace_descriptions !! [c] with
      | Some _ => namespaces
      | None => <[ [c] := lit "Unknown_" ++ [c] ]> namespaces
      end
  end.

Definition view_all_namespaces (zim : Archive) : gmap (list N) (list N) :=
  fold_left view_namespace_step zim ∅.

(** [ZimManager.get_namespaces]: in a dict display later items win. *)
Definition get_namespaces (zim : Archive) : gmap (list N) (list N) :=
  <[ lit "UNKNOWN" := lit "Select all unknown namespaces" ]>
    (<[ lit "ALL" := lit "Select all namespaces" ]>
       (view_all_namespaces zim ∪ namespace_descriptions)).

(** [ZimManager.set_namespace]: the value stored in
    [self.selected_namespace] and returned; [None] is Python's [None]. *)
Definition set_namespace (zim : Archive) (selected_ns : str)
    : result (option str) :=
  let namespaces := get_namespaces zim in
  let selected_ns_upper := Py.strip (Py.upper selected_ns) in
  if Py.str_eqb selected_ns_upper (lit "ALL") then Ok None
  else if Py.str_eqb selected_ns_upper (lit "UNKNOWN")
       then Ok (Some (lit "UNKNOWN"))
  else match namespaces !! selected_ns_upper with
       | Some description => Ok (Some description)
       | None => Raise (ValueError (lit "Invalid namespace selected."))
       end.

(** ** Reading *)

(** [ZimManager.extract_all_text]: [outfile] is what has been written so
    far; the result of a completed call is the text of the output file. *)
Fixpoint extract_all_text_loop
    (es : list Entry) (namespace : option str) (outfile : str)
    : result str :=
  match es with
  | [] => Ok outfile
  | entry :: es' =>
      rbind (Py.startswith_arg (path entry) namespace) (fun sel =>
      if sel then
        rbind (Py.decode_utf8 Py.Ignore (content entry)) (fun article =>
        match Py.re_search_body article with
        | Some body =>
            let clean_text := Py.strip_tags body in
            extract_all_text_loop es' namespace
              (outfile ++ clean_text ++ nl ++ nl)
        | None => extract_all_text_loop es' namespace outfile
        end)
      else extract_all_text_loop es' namespace outfile)
  end.

Definition extract_all_text (zim : Archive) (namespace : option str)
    : result str :=
  extract_all_text_loop zim namespace [].

(** [ZimManager.extract_titles] *)
Fixpoint extract_titles_loop
    (es : list Entry) (namespace : option str) (results : list (str * str))
    : result (list (str * str)) :=
  match es with
  | [] => Ok results
  | entry :: es' =>
      rbind (Py.startswith_arg (path entry) namespace) (fun sel =>
      extract_titles_loop es' namespace
        (if sel then results ++ [(path entry, title entry)] else results))
  end.

Definition extract_titles (zim : Archive) (namespace : option str)
    : result (list (str * str)) :=
  extract_titles_loop zim namespace [].

(** [ZimManager.list_all_paths]: [namespace is None] is tested first, so
    [startswith] only ever sees a string. *)
Fixpoint list_all_paths_loop
    (es : list Entry) (namespace : option str) (paths : list str)
    : result (list str) :=
  match es with
  | [] => Ok paths
  | entry :: es' =>
      rbind (match namespace with
             | None => Ok true
             | Some _ => Py.startswith_arg (path entry) namespace
             end) (fun sel =>
      list_all_paths_loop es' namespace
        (if sel then paths ++ [path entry] else paths))
  end.

Definition list_all_paths (zim : Archive) (namespace : option str)
    : result (list str) :=
  list_all_paths_loop zim namespace [].

(** [ZimManager.save_titles_to_file]: the text of the output file.  The
    file is opened only after the results have been found not to be
    empty. *)
Fixpoint save_titles_loop (results : list (str * str)) (outfile : str)
    : str :=
  match results with
  | [] => outfile
  | (url, entry_title) :: results' =>
      save_titles_loop results'
        (outfile ++ lit "Title: " ++ entry_title ++ nl
                 ++ lit "URL: " ++ url ++ nl ++ nl)
  end.

Definition save_titles_to_file (zim : Archive) (namespace : option str)
    : result str :=
  rbind (extract_titles zim namespace) (fun results =>
  match results with
  | [] => Raise (ValueError (lit "No titles found."))
  | _ :: _ => Ok (save_titles_loop results [])
  end).

(** [ZimManager.save_selected_articles]: how the call ends, and the text
    the output file holds when the [with] block is left; [outfile] is
    what has been written so far.  An [Entry] object is true, so the
    test of the entry passes whenever the lookup returns. *)
Fixpoint save_selected_articles_loop
    (zim : Archive) (selected_urls : list str) (outfile : str)
    : result unit * str :=
  match selected_urls with
  | [] => (Ok tt, outfile)
  | selected_url :: urls' =>
      match get_entry_by_path zim selected_url with
      | Raise e => (Raise e, outfile)
      | Ok entry =>
          match Py.decode_utf8 Py.Ignore (content entry) with
          | Raise e => (Raise e, outfile)
          | Ok article =>
              match Py.re_search_body article with
              | Some body =>
                  let clean_text := Py.strip_tags body in
                  save_selected_articles_loop zim urls'
                    (outfile ++ lit "Title: " ++ title entry ++ nl ++ nl
                             ++ clean_text ++ nl ++ nl)
              | None =>
                  let clean_text := Py.strip_tags article in
                  save_selected_articles_loop zim urls'
                    (outfile ++ lit "Title: " ++ title entry ++ nl ++ nl
                             ++ clean_text ++ nl ++ nl)
              end
          end
      end
  end.

Definition save_selected_articles (zim : Archive) (selected_urls : list str)
    : result unit * str :=
  save_selected_articles_loop zim selected_urls [].

(** ** Bulk extraction *)

(** What is written to a file: bytes in binary mode, text in text mode. *)
Inductive payload : Type :=
  | Binary (data : bytes)
  | Text (data : str).

(** One file written by [extract_by_mimetype]: the file
    [output_dir / name], where [name] is a single path segment. *)
Record file_write : Type := mkWrite {
  w_dir : str;
  w_name : str;
  w_data : payload
}.

(** The test of the [if] in [extract_by_mimetype]. *)
Definition entry_selected
    (namespace : option str) (mimetype : str) (entry : Entry) : bool :=
  let item_mimetype := _determine_mimetype (path entry) in
  let entry_namespace := take 1 (path entry) in
  ((match namespace with
    | None => true
    | Some ns => Py.str_eqb entry_namespace ns
    end)
   || (match namespace with
       | None => false
       | Some ns => Py.str_eqb ns (lit "UNKNOWN")
       end
       && Py.startswith (get_namespace_description entry_namespace)
                        (lit "Unknown")))
  && Py.startswith item_mimetype mimetype.

(** The name of the file an entry is written to. *)
Definition output_name (entry : Entry) : str :=
  let item_mimetype := _determine_mimetype (path entry) in
  let file_extension := Py.split_last 47 item_mimetype in
  let sanitized_path := _sanitize_filename (path entry) in
  sanitized_path ++ lit "." ++ file_extension.

Definition binary_mode (mimetype : str) : bool :=
  existsb (fun media => Py.contains mimetype media)
          [lit "image"; lit "video"; lit "application/octet-stream"].

(** [ZimManager.extract_by_mimetype]: the files written, in order. *)
Fixpoint extract_by_mimetype_loop
    (es : list Entry) (output_dir : str) (namespace : option str)
    (mimetype : str) (written : list file_write)
    : result (list file_write) :=
  match es with
  | [] => Ok written
  | entry :: es' =>
      match path entry with
      | [] => extract_by_mimetype_loop es' output_dir namespace mimetype written
      | _ :: _ =>
          if entry_selected namespace mimetype entry then
            let name := output_name entry in
            if binary_mode mimetype then
              extract_by_mimetype_loop es' output_dir namespace mimetype
                (written ++ [mkWrite output_dir name (Binary (content entry))])
            else
              rbind (Py.decode_utf8 Py.Ignore (content entry)) (fun text =>
              extract_by_mimetype_loop es' output_dir namespace mimetype
                (written ++ [mkWrite output_dir name (Text text)]))
          else
            extract_by_mimetype_loop es' output_dir namespace mimetype written
      end
  end.

Definition extract_by_mimetype
    (zim : Archive) (output_dir : str) (namespace : option str)
    (mimetype : str) : result (list file_write) :=
  extract_by_mimetype_loop zim output_dir namespace mimetype [].

(** [ZimManager.extract_html_files], [extract_images],
    [extract_css_files] and [extract_js_files] *)
Definition extract_html_files (zim : Archive) (output_dir : str)
    (namespace : option str) : result (list file_write) :=
  extract_by_mimetype zim output_dir namespace (lit "text/html").

Definition extract_images (zim : Archive) (output_dir : str)
    (namespace : option str) : result (list file_write) :=
  extract_by_mimetype zim output_dir namespace (lit "image/").

Definition extract_css_files (zim : Archive) (output_dir : str)
    (namespace : option str) : result (list file_write) :=
  extract_by_mimetype zim output_dir namespace (lit "text/css").

Definition extract_js_files (zim : Archive) (output_dir : str)
    (namespace : option str) : result (list file_write) :=
  extract_by_mimetype zim output_dir namespace (lit "application/javascript").

(** ** Building an archive *)

(** *** The file system and the clock

    The world [create_zim_file] runs in: the regular files by path, the
    outcomes the operating system will give to the coming [os.rename]
    calls ([Some e]: the call raises [e] and changes nothing; [None], or
    no entry left: the call goes through), and the log of calls made. *)
Inductive event : Type :=
  | EvCreator (p : str)
  | EvRename (src dst : str) (done : bool)
  | EvSleep (seconds : N)
  | EvMove (src dst : str)
  | EvRemove (p : str).

Record world : Type := mkWorld {
  files : gmap (list N) (list Byte.byte);
  rename_faults : list (option exn);
  trace : list event
}.

Definition io (A : Type) : Type := world -> result A * world.

#[global] Instance io_ret : MRet io := fun A a w => (Ok a, w).

#[global] Instance io_bind : MBind io := fun A B k m w =>
  match m w with
  | (Ok a, w') => k a w'
  | (Raise e, w') => (Raise e, w')
  end.

(** [try: m except PermissionError: handler] *)
Definition try_except_PermissionError {A} (m handler : io A) : io A :=
  fun w =>
    match m w with
    | (Raise PermissionError, w') => handler w'
    | r => r
    end.

(** [try: m finally: cleanup]: the clean-up runs on every exit; what [m]
    returned or raised stands unless the clean-up itself raises. *)
Definition try_finally {A} (m : io A) (cleanup : io unit) : io A :=
  fun w =>
    match m w with
    | (r, w') =>
        match cleanup w' with
        | (Ok _, w'') => (r, w'')
        | (Raise e, w'') => (Raise e, w'')
        end
    end.

Definition log (ev : event) (w : world) : world :=
  mkWorld (files w) (rename_faults w) (trace w ++ [ev]).

Module os.

(** [os.path.exists] *)
Definition path_exists (p : str) : io bool :=
  fun w => (Ok (bool_decide (is_Some (files w !! p))), w).

(** [os.rename]: replaces the destination when it goes through. *)
Definition rename (src dst : str) : io unit :=
  fun w =>
    let rest := tail (rename_faults w) in
    match head (rename_faults w) with
    | Some (Some e) =>
        (Raise e,
         mkWorld (files w) rest (trace w ++ [EvRename src dst false]))
    | _ =>
        match files w !! src with
        | Some data =>
            (Ok tt,
             mkWorld (<[dst := data]> (delete src (files w))) rest
                     (trace w ++ [EvRename src dst true]))
        | None =>
            (Raise FileNotFoundError,
             mkWorld (files w) rest (trace w ++ [EvRename src dst false]))
        end
    end.

(** [os.remove] *)
Definition remove (p : str) : io unit :=
  fun w =>
    match files w !! p with
    | Some _ =>
        (Ok tt,
         mkWorld (delete p (files w)) (rename_faults w)
                 (trace w ++ [EvRemove p]))
    | None => (Raise FileNotFoundError, log (EvRemove p) w)
    end.

End os.

(** [shutil.move] of a regular file onto a file path. *)
Definition shutil_move (src dst : str) : io unit :=
  fun w =>
    match files w !! src with
    | Some data =>
        (Ok tt,
         mkWorld (<[dst := data]> (delete src (files w))) (rename_faults w)
                 (trace w ++ [EvMove src dst]))
    | None => (Raise FileNotFoundError, log (EvMove src dst) w)
    end.

(** [time.sleep] *)
Definition time_sleep (seconds : N) : io unit :=
  fun w => (Ok tt, log (EvSleep seconds) w).

(** *** The archive writer

    What [create_zim_file] asks of libzim's [Creator], in order. *)
Inductive creator_call : Type :=
  | ConfigIndexing (indexing : bool) (language : str)
  | SetMainpath (p : str)
  | AddItem (item : MyItem.t)
  | AddMetadata (name value : str).

(** What the writer made of them: the finished archive, or an exception
    together with what is then found at the writer's path, if anything. *)
Inductive creator_outcome : Type :=
  | Staged (archive : bytes)
  | StagingFailed (e : exn) (left_behind : option bytes).

(** Modelled from the spec: the write capability of the archive engine
    (libzim's [Creator]).  The model takes it as given: from the path,
    the calls and the disk it decides the outcome, and it writes at its
    own path and nowhere else. *)
Definition Creator : Type :=
  str -> list creator_call -> gmap (list N) (list Byte.byte)
  -> creator_outcome.

Definition run_creator (engine : Creator) (p : str)
    (calls : list creator_call) : io unit :=
  fun w =>
    match engine p calls (files w) with
    | Staged archive =>
        (Ok tt,
         mkWorld (<[p := archive]> (files w)) (rename_faults w)
                 (trace w ++ [EvCreator p]))
    | StagingFailed e left_behind =>
        (Raise e,
         mkWorld (match left_behind with
                  | Some data => <[p := data]> (files w)
                  | None => delete p (files w)
                  end)
                 (rename_faults w) (trace w ++ [EvCreator p]))
    end.

(** An article as the callers pass it: a dict with these three keys. *)
Record Article : Type := mkArticle {
  a_title : str;
  a_path : str;
  a_content : str
}.

(** The metadata of [create_zim_file], names as written in the source. *)
Definition metadata : list (str * str) :=
  [ (lit "creator", lit "python-libzim");
    (lit "description", lit "Created in python");
    (lit "name", lit "my-zim");
    (lit "publisher", lit "You");
    (lit "title", lit "Test ZIM");
    (lit "language", lit "eng");
    (lit "date", lit "2024-06-30") ].

(** [name.title()] on a name that is one lower-case word. *)
Definition title_case (name : str) : str :=
  match name with
  | [] => []
  | c :: rest => Py.upper_char c :: rest
  end.

Definition creator_calls (articles : list Article) (main_article_path : str)
    : list creator_call :=
  ConfigIndexing true (lit "eng")
  :: SetMainpath main_article_path
  :: map (fun article =>
            AddItem (MyItem.mk (a_title article) (a_path article)
                               (a_content article) None)) articles
  ++ map (fun '(name, value) => AddMetadata (title_case name) value) metadata.

(** [ZimManager.create_zim_file] *)
Definition create_zim_file (engine : Creator)
    (output_file : str) (articles : list Article) (main_article_path : str)
    : io unit :=
  let temp_output_file := output_file ++ lit ".tmp" in
  let backup_file := output_file ++ lit ".backup" in
  try_finally
    (run_creator engine temp_output_file
                 (creator_calls articles main_article_path) ;;
     old ← os.path_exists output_file;
     (if old : bool then
        try_except_PermissionError
          (os.rename output_file backup_file)
          (time_sleep 2 ;; os.rename output_file backup_file)
      else mret tt) ;;
     shutil_move temp_output_file output_file ;;
     kept ← os.path_exists backup_file;
     if kept : bool then os.remove backup_file else mret tt)
    (stale ← os.path_exists temp_output_file;
     if stale : bool then os.remove temp_output_file else mret tt).

(** ** Text files *)

(** The UTF-8 encoder and the newline handling of Python's text mode,
    which the class uses for every file it opens with an encoding.
    [UnicodeEncodeError] is a [ValueError]. *)
Module Codec.

Definition byte_of (n : N) : Byte.byte := default Byte.x00 (Byte.of_N n).

(** The UTF-8 sequence of one code point; surrogates have none. *)
Definition encode_char (c : N) : option (list Byte.byte) :=
  if c <? 128 then Some [byte_of c]
  else if c <? 2048 then
    Some [byte_of (192 + c / 64); byte_of (128 + c mod 64)]
  else if c <? 65536 then
    if (55296 <=? c) && (c <? 57344) then None
    else Some [byte_of (224 + c / 4096);
               byte_of (128 + (c / 64) mod 64);
               byte_of (128 + c mod 64)]
  else if c <? 1114112 then
    Some [byte_of (240 + c / 262144);
          byte_of (128 + (c / 4096) mod 64);
          byte_of (128 + (c / 64) mod 64);
          byte_of (128 + c mod 64)]
  else None.

(** [s.encode('utf-8', errors=...)] *)
Fixpoint encode_utf8 (h : Py.errors) (s : list N) : result (list Byte.byte) :=
  match s with
  | [] => Ok []
  | c :: s' =>
      match encode_char c with
      | Some seq => rbind (encode_utf8 h s') (fun r => Ok (seq ++ r))
      | None =>
          match h with
          | Py.Strict => Raise (ValueError (lit "UnicodeEncodeError"))
          | Py.Ignore => encode_utf8 h s'
          | Py.Replace =>
              rbind (encode_utf8 h s') (fun r => Ok (Byte.x3f :: r))
          end
      end
  end.

(** Text mode, writing: each [\n] becomes the line separator. *)
Definition translate_out (linesep s : list N) : list N :=
  flat_map (fun c => if c =? 10 then linesep else [c]) s.

(** Text mode, reading: [\r\n] and [\r] become [\n]. *)
Fixpoint universal_newlines (s : list N) : list N :=
  match s with
  | [] => []
  | c :: r =>
      if c =? 13 then
        match r with
        | d :: r' => if d =? 10 then 10 :: universal_newlines r'
                     else 10 :: universal_newlines r
        | [] => [10]
        end
      else c :: universal_newlines r
  end.

End Codec.

(** [open(p, 'w', encoding='utf-8', errors=h)] followed by
    [write(text)]: the bytes that reach the file, [linesep] being
    [os.linesep]. *)
Definition write_text (h : Py.errors) (linesep text : str)
    : result (list Byte.byte) :=
  Codec.encode_utf8 h (Codec.translate_out linesep text).

(** [open(p, 'r', encoding='utf-8', errors='ignore')] followed by
    [read()], from the bytes of the file. *)
Definition read_text (data : bytes) : result str :=
  rbind (Py.decode_utf8 Py.Ignore data) (fun s =>
  Ok (Codec.universal_newlines s)).

(** [ZimManager.view_file], on a disk given by its regular files. *)
Definition view_file (disk : gmap (list N) (list Byte.byte))
    (file_path : str) : result str :=
  match disk !! file_path with
  | Some data => read_text data
  | None => Raise FileNotFoundError
  end.

(** The bytes [extract_by_mimetype] leaves in a file: what it was given
    in mode ['wb'], and the text encoded with [errors='ignore'] in mode
    ['w']. *)
Definition written_bytes (linesep : str) (data : payload)
    : result (list Byte.byte) :=
  match data with
  | Binary content => Ok content
  | Text text => write_text Py.Ignore linesep text
  end.

(** ** Building from a directory *)

(** [os.path.splitext(name)[0]] for a name without a directory
    separator: the name up to its last dot, unless only dots come
    before that dot. *)
Fixpoint after_first (sep : char) (s : str) : option str :=
  match s with
  | [] => None
  | c :: r => if c =? sep then Some r else after_first sep r
  end.

Definition splitext_root (name : str) : str :=
  match after_first 46 (rev name) with
  | Some r => if existsb (fun c => negb (c =? 46)) r then rev r else name
  | None => name
  end.

(** [s.replace(old, new)] for one-character strings. *)
Definition replace_char (old new : char) (s : str) : str :=
  map (fun c => if c =? old then new else c) s.

(** A regular file as [os.walk(input_directory)] reaches it: the
    directories from [input_directory] down to it, its name and its
    bytes.  [relative_path] is
    [os.path.relpath(os.path.join(root, file), input_directory)], with
    [sep] for [os.path.sep]. *)
Record walked_file : Type := mkWalked {
  wf_dirs : list (list N);
  wf_file : list N;
  wf_data : list Byte.byte
}.

Definition relative_path (sep : char) (f : walked_file) : str :=
  concat (map (fun d => d ++ [sep]) (wf_dirs f)) ++ wf_file f.

(** The namespace [create_zim_file_from_directory_auto] gives a file. *)
Definition infer_namespace (file : str) : str :=
  if Py.endswith file (lit ".html") || Py.endswith file (lit ".htm")
  then lit "A"
  else if Py.endswith file (lit ".png") || Py.endswith file (lit ".jpg")
          || Py.endswith file (lit ".jpeg")
  then lit "I"
  else if Py.endswith file (lit ".css") then lit "S"
  else if Py.endswith file (lit ".js") then lit "S"
  else if Py.endswith file (lit ".pdf") then lit "F"
  else if Py.endswith file (lit ".mp4") || Py.endswith file (lit ".webm")
          || Py.endswith file (lit ".ogg")
  then lit "V"
  else lit "F".

Definition zim_path_of (sep : char) (f : walked_file) : str :=
  infer_namespace (wf_file f) ++ lit "/"
  ++ replace_char sep 47 (relative_path sep f).

(** The loop of [create_zim_file_from_directory_auto] over the files of
    the walk. *)
Fixpoint collect_articles (sep : char) (walk : list walked_file)
    (articles : list Article) : result (list Article) :=
  match walk with
  | [] => Ok articles
  | f :: walk' =>
      rbind (read_text (wf_data f)) (fun content =>
      collect_articles sep walk'
        (articles
         ++ [mkArticle (splitext_root (wf_file f)) (zim_path_of sep f)
                       content]))
  end.

(** [ZimManager.create_zim_file_from_directory_auto] *)
Definition create_zim_file_from_directory_auto (engine : Creator)
    (sep : char) (walk : list walked_file)
    (output_file main_article_path : str) : io unit :=
  fun w =>
    match collect_articles sep walk [] with
    | Ok articles =>
        create_zim_file engine output_file articles main_article_path w
    | Raise e => (Raise e, w)
    end.

(** ** The window's handlers *)

(** What a handler shows when it returns: a [QMessageBox.warning] or a
    [QMessageBox.information], with its title and text. *)
Inductive message : Type :=
  | Warning (box_title text : str)
  | Information (box_title text : str).

(** [not s] for a string: true of the empty string only. *)
Definition is_empty (s : str) : bool :=
  match s with
  | [] => true
  | _ :: _ => false
  end.

(** [MainWindow.run_extract_titles], from the texts of the two input
    fields.  [open_archive] stands for [ZimManager(zim_file)], which
    opens the archive or raises; the result is the message shown and the
    text written to the output file. *)
Definition run_extract_titles
    (open_archive : str -> result (list Entry)) (zim_file output_file : str)
    : result (message * str) :=
  if is_empty zim_file || is_empty output_file then
    Ok (Warning (lit "Input Error")
          (lit "Please select a ZIM file and specify an output file."),
        [])
  else
    rbind (open_archive zim_file) (fun manager =>
    let selected_namespace : option str := None in
    rbind (save_titles_to_file manager selected_namespace) (fun written =>
    Ok (Information (lit "Extract Titles")
          (lit "Titles extracted to " ++ output_file),
        written))).

(** [MainWindow.run_extract_mimetype]: the message shown and the files
    written. *)
Definition run_extract_mimetype
    (open_archive : str -> result (list Entry))
    (zim_file output_dir mimetype : str)
    : result (message * list file_write) :=
  if is_empty zim_file || is_empty output_dir then
    Ok (Warning (lit "Input Error")
          (lit "Please select a ZIM file and specify an output directory."),
        [])
  else
    rbind (open_archive zim_file) (fun manager =>
    rbind (extract_by_mimetype manager output_dir None mimetype)
      (fun written =>
    Ok (Information (lit "Extract by MIME Type")
          (lit "Files of MIME type " ++ mimetype ++ lit " extracted to "
           ++ output_dir),
        written))).

(** The items of the window's MIME type box. *)
Definition mimetype_combo : list str :=
  [ lit "text/html"; lit "image/png"; lit "image/jpeg"; lit "text/css";
    lit "application/javascript"; lit "application/pdf"; lit "text/plain";
    lit "application/zip"; lit "video/mp4"; lit "video/webm";
    lit "video/ogg" ].

(** ** Vocabulary of the statements *)

(** The rule list of the mimetype resolver as the specification words it:
    rules are tried from the top and the first that matches gives the
    type; [default] is the type of a path no rule matches. *)
Inductive rule : Type :=
  | StartsWith (p : str)
  | EndsWith (p : str).

Definition rule_matches (path : str) (r : rule) : bool :=
  match r with
  | StartsWith p => Py.startswith path p
  | EndsWith p => Py.endswith path p
  end.

Fixpoint first_match (rules : list (rule * str)) (default path : str) : str :=
  match rules with
  | [] => default
  | (r, mimetype) :: rules' =>
      if rule_matches path r then mimetype
      else first_match rules' default path
  end.

Definition write_rules : list (rule * str) :=
  [ (EndsWith (lit ".html"), lit "text/html");
    (EndsWith (lit ".htm"), lit "text/html");
    (EndsWith (lit ".png"), lit "image/png");
    (EndsWith (lit ".jpg"), lit "image/jpeg");
    (EndsWith (lit ".jpeg"), lit "image/jpeg");
    (EndsWith (lit ".css"), lit "text/css");
    (EndsWith (lit ".js"), lit "application/javascript") ].

Definition read_rules : list (rule * str) :=
  (StartsWith (lit "A/"), lit "text/html")
  :: write_rules
  ++ [ (EndsWith (lit ".pdf"), lit "application/pdf");
       (EndsWith (lit ".zip"), lit "application/zip");
       (EndsWith (lit ".mp4"), lit "video/mp4");
       (EndsWith (lit ".webm"), lit "video/webm");
       (EndsWith (lit ".ogg"), lit "video/ogg") ].

(** The text of an entry as the reading operations see it. *)
Definition decoded (content : bytes) : str :=
  match Py.decode_utf8 Py.Ignore content with
  | Ok s => s
  | Raise _ => []
  end.

(** A document has a body region when it reads: anything, [<body],
    anything, [>], anything, [</body>], anything. *)
Definition has_body_region (s : str) : Prop :=
  exists pre attrs inner post,
    s = pre ++ lit "<body" ++ attrs ++ lit ">" ++ inner
            ++ lit "</body>" ++ post.

(** What [extract_all_text] writes for one entry. *)
Definition text_block (namespace : str) (entry : Entry) : str :=
  if Py.startswith (path entry) namespace then
    match Py.re_search_body (decoded (content entry)) with
    | Some body => Py.strip_tags body ++ nl ++ nl
    | None => []
    end
  else [].

(** The archive has an entry with the path. *)
Definition has_path (zim : Archive) (url : str) : bool :=
  existsb (fun e => bool_decide (path e = url)) zim.

(** The requested paths that come before the first one the archive
    does not have. *)
Fixpoint found_prefix (zim : Archive) (urls : list str) : list str :=
  match urls with
  | [] => []
  | url :: urls' =>
      if has_path zim url then url :: found_prefix zim urls' else []
  end.

(** The block of one article in the file of [save_selected_articles]:
    the title line, an empty line, the text, an empty line. *)
Definition selected_text (title text : str) : str :=
  lit "Title: " ++ title ++ [10; 10] ++ text ++ [10; 10].

(** What [save_selected_articles] writes for a path the archive has:
    the body with its tags stripped, or the whole document with its
    tags stripped when it has no body. *)
Definition selected_block (zim : Archive) (url : str) : str :=
  match find (fun e => bool_decide (path e = url)) zim with
  | None => []
  | Some entry =>
      let article := decoded (content entry) in
      selected_text (title entry)
        (Py.strip_tags (default article (Py.re_search_body article)))
  end.

(** The bytes begin with the UTF-8 sequence of a code point. *)
Definition starts_with_char (data : bytes) : Prop :=
  exists c seq rest, Codec.encode_char c = Some seq /\ data = seq ++ rest.

(** A continuation byte: [10xxxxxx]. *)
Definition continuation (x : Byte.byte) : Prop :=
  128 <= Byte.to_N x < 192.

(** The bytes of the text of an entry, encoded again. *)
Definition kept_bytes (content : bytes) : bytes :=
  match Codec.encode_utf8 Py.Ignore (decoded content) with
  | Ok data => data
  | Raise _ => []
  end.

(** The namespace selectors of the specification and the Python value
    that stands for each. *)
Inductive Selector : Type :=
  | NoFilter
  | ExactNamespace (code : char)
  | UnknownFilter.

Definition selector_arg (sel : Selector) : option str :=
  match sel with
  | NoFilter => None
  | ExactNamespace code => Some [code]
  | UnknownFilter => Some (lit "UNKNOWN")
  end.

Definition selector_matches (sel : Selector) (entry : Entry) : bool :=
  match sel, path entry with
  | NoFilter, _ => true
  | ExactNamespace code, c :: _ => c =? code
  | UnknownFilter, c :: _ =>
      bool_decide (namespace_descriptions !! [c] = None)
  | _, [] => false
  end.

(** The file [extract_by_mimetype] writes for an entry it selects. *)
Definition write_of (output_dir mimetype : str) (entry : Entry)
    : file_write :=
  mkWrite output_dir (output_name entry)
    (if binary_mode mimetype then Binary (content entry)
     else Text (decoded (content entry))).

Definition extraction_filter (sel : Selector) (mimetype : str)
    (entry : Entry) : bool :=
  negb (bool_decide (path entry = []))
  && selector_matches sel entry
  && Py.startswith (_determine_mimetype (path entry)) mimetype.

(** The entries [extract_by_mimetype] writes a file for, whatever the
    namespace argument is. *)
Definition written_entry (namespace : option str) (mimetype : str)
    (entry : Entry) : bool :=
  negb (is_empty (path entry)) && entry_selected namespace mimetype entry.

(** The namespace that goes with a resolved mimetype. *)
Definition namespace_of_type (mimetype : str) : str :=
  if Py.str_eqb mimetype (lit "text/html") then lit "A"
  else if Py.startswith mimetype (lit "image/") then lit "I"
  else if Py.str_eqb mimetype (lit "text/css")
          || Py.str_eqb mimetype (lit "application/javascript")
  then lit "S"
  else if Py.startswith mimetype (lit "video/") then lit "V"
  else lit "F".

(** The article the directory build makes of a file. *)
Definition article_of (sep : char) (f : walked_file) : Article :=
  mkArticle (splitext_root (wf_file f)) (zim_path_of sep f)
            (Codec.universal_newlines (decoded (wf_data f))).

(** The types [_determine_mimetype] can give. *)
Definition known_mimetypes : list str :=
  [ lit "text/html"; lit "image/png"; lit "image/jpeg"; lit "text/css";
    lit "application/javascript"; lit "application/pdf";
    lit "application/zip"; lit "video/mp4"; lit "video/webm";
    lit "video/ogg"; lit "application/octet-stream" ].

(** ** Sample data

    The archive of the specification's extraction example, with one entry
    of an unregistered namespace, one page without a body and one page
    whose bytes are not valid UTF-8 added. *)
Definition blit (s : string) : bytes := list_byte_of_string s.
Arguments blit s%_string.

Module Sample.

Definition page : Entry :=
  mkEntry (lit "A/a.html") (lit "Home")
          (blit "<html><body class=main>Hi <b>there</b></body></html>").
Definition png : Entry := mkEntry (lit "I/b.png") (lit "b") (blit "PNG").
Definition jpg : Entry := mkEntry (lit "I/c.jpg") (lit "c") (blit "JPG").
Definition odd : Entry := mkEntry (lit "Z/notes.css") (lit "z") (blit "p{}").
Definition bare : Entry :=
  mkEntry (lit "A/bare") (lit "Bare") (blit "<p>no <i>body</i> here</p>").
Definition broken : Entry :=
  mkEntry (lit "A/broken") (lit "Broken")
          [Byte.x41; Byte.xff; Byte.x42].

Definition archive : list Entry := [page; png; jpg; odd; bare; broken].

Definition out : str := lit "out".

(** Two writers, one that fails leaving a partial file and one that
    succeeds, and a disk holding an archive and a backup left by an
    earlier run. *)
Definition failing_writer : Creator :=
  fun _ _ _ => StagingFailed OSError (Some (blit "partial")).
Definition working_writer : Creator :=
  fun _ _ _ => Staged (blit "NEW").

Definition disk (faults : list (option exn)) : world :=
  mkWorld (list_to_map [(lit "o.zim", blit "OLD")]) faults [].
Definition stale_disk : world :=
  mkWorld (list_to_map [ (lit "o.zim", blit "OLD");
                         (lit "o.zim.backup", blit "STALE") ]) [] [].

End Sample.

(** A small site on disk, as the directory walk reaches it. *)
Module Site.

Definition index : walked_file :=
  mkWalked [] (lit "index.html") (blit "<html><body>Hi</body></html>").
Definition logo : walked_file :=
  mkWalked [lit "img"] (lit "logo.png") (blit "PNG").
Definition style : walked_file :=
  mkWalked [lit "css"; lit "main"] (lit "site.css") (blit "p{}").
Definition hidden : walked_file :=
  mkWalked [] (lit ".htaccess") (blit "deny").

Definition walk : list walked_file := [index; logo; style; hidden].

End Site.

(* ===================================================================== *)
(** * Part II.  Properties                                                *)
(* ===================================================================== *)

(** ** Strings *)

Lemma startswith_app (p rest : str) : Py.startswith (p ++ rest) p = true.
Proof.
  induction p as [|c p IH]; simpl; [done|].
  by rewrite N.eqb_refl, IH.
Qed.

Lemma startswith_prefix (s p : str) :
  Py.startswith s p = true <-> exists rest, s = p ++ rest.
Proof.
  split.
  - revert s. induction p as [|c p IH]; intros s H; simpl in *.
    + by exists s.
    + destruct s as [|d s]; [done|].
      apply andb_true_iff in H as [Hc Hs]. apply N.eqb_eq in Hc as ->.
      destruct (IH _ Hs) as [rest ->]. by exists rest.
  - intros [rest ->]. apply startswith_app.
Qed.

Lemma endswith_suffix (s p : str) :
  Py.endswith s p = true <-> exists front, s = front ++ p.
Proof.
  unfold Py.endswith. rewrite startswith_prefix. split.
  - intros [rest H]. exists (rev rest).
    apply (f_equal (@rev N)) in H.
    by rewrite rev_involutive, rev_app_distr, rev_involutive in H.
  - intros [front ->]. exists (rev front). by rewrite rev_app_distr.
Qed.

Lemma app_nonempty_ne (s x : str) : x <> [] -> s ++ x <> s.
Proof.
  intros Hx H. apply (f_equal length) in H.
  rewrite length_app in H. destruct x; [done|simpl in H; lia].
Qed.

(** ** Mimetype resolution *)

Lemma determine_mimetype_table (path : str) :
  _determine_mimetype path
  = first_match read_rules (lit "application/octet-stream") path.
Proof.
  unfold _determine_mimetype, read_rules, write_rules; cbn [first_match app rule_matches].
  repeat match goal with
         | |- context [if ?b || ?c then _ else _] => destruct b; cbn [orb]
         | |- context [if ?b then _ else _] => destruct b
         end; reflexivity.
Qed.

Lemma get_mimetype_table (item : MyItem.t) :
  MyItem.get_mimetype item
  = first_match write_rules (lit "application/octet-stream")
                (MyItem._path item).
Proof.
  unfold MyItem.get_mimetype, write_rules; cbn [first_match rule_matches].
  repeat match goal with
         | |- context [if ?b || ?c then _ else _] => destruct b; cbn [orb]
         | |- context [if ?b then _ else _] => destruct b
         end; reflexivity.
Qed.

Lemma first_match_default rules default path :
  forallb (fun r => negb (rule_matches path r.1)) rules = true ->
  first_match rules default path = default.
Proof.
  induction rules as [|[r m] rules IH]; simpl; [done|].
  intros [Hr Hrest]%andb_true_iff.
  apply negb_true_iff in Hr. rewrite Hr. auto.
Qed.

(** C7.  The read-side resolver is the rule list of the specification
    tried top to bottom, first match winning: a path that starts with
    [A/] is [text/html] whatever its extension, and a path no rule
    matches is [application/octet-stream].  The write-side resolver of
    [MyItem] is the same list cut down to its extension rules for
    [.html], [.htm], [.png], [.jpg], [.jpeg], [.css] and [.js], without
    the [A/] rule and with the same fall-back. *)
Theorem mimetype_rules_first_match (path rest : str) (item : MyItem.t) :
  _determine_mimetype path
    = first_match read_rules (lit "application/octet-stream") path
  /\ _determine_mimetype (lit "A/" ++ rest) = lit "text/html"
  /\ (if forallb (fun r => negb (rule_matches path r.1)) read_rules
      then _determine_mimetype path = lit "application/octet-stream"
      else True)
  /\ MyItem.get_mimetype item
      = first_match write_rules (lit "application/octet-stream")
                    (MyItem._path item)
  /\ read_rules
      = (StartsWith (lit "A/"), lit "text/html") :: write_rules
        ++ drop 8 read_rules
  /\ (if Py.startswith (MyItem._path item) (lit "A/")
      then _determine_mimetype (MyItem._path item) = lit "text/html"
      else if existsb (fun r => rule_matches (MyItem._path item) r.1)
                      write_rules
      then MyItem.get_mimetype item
           = _determine_mimetype (MyItem._path item)
      else MyItem.get_mimetype item = lit "application/octet-stream").
Proof.
  split; [apply determine_mimetype_table|].
  split.
  { unfold _determine_mimetype.
    by rewrite (startswith_app (lit "A/") rest). }
  split.
  { destruct (forallb _ read_rules) eqn:H; [|done].
    rewrite determine_mimetype_table. by apply first_match_default. }
  split; [apply get_mimetype_table|].
  split; [reflexivity|].
  destruct (Py.startswith _ (lit "A/")) eqn:HA.
  { unfold _determine_mimetype. by rewrite HA. }
  destruct (existsb _ write_rules) eqn:Hw.
  - rewrite get_mimetype_table, determine_mimetype_table.
    unfold read_rules. cbn [first_match rule_matches]. rewrite HA.
    revert Hw. generalize write_rules as rules.
    induction rules as [|[r m] rules IH]; simpl; [done|].
    destruct (rule_matches _ r); simpl; auto.
  - rewrite get_mimetype_table. apply first_match_default.
    revert Hw. generalize write_rules as rules.
    induction rules as [|[r m] rules IH]; simpl; [done|].
    destruct (rule_matches _ r); simpl; auto.
Qed.

(** ** File names *)

Lemma sanitize_length (filename : str) :
  length (_sanitize_filename filename) = length filename.
Proof. apply length_map. Qed.

Lemma sanitize_no_special (filename : str) :
  Forall (fun c => is_special c = false) (_sanitize_filename filename).
Proof.
  unfold _sanitize_filename. apply Forall_map, Forall_forall.
  intros c _. simpl. by destruct (is_special c) eqn:E.
Qed.

Lemma before_sep_free (sep : char) (s : str) : sep ∉ Py.before_sep sep s.
Proof.
  induction s as [|c s IH]; simpl; [apply not_elem_of_nil|].
  destruct (c =? sep) eqn:E; [apply not_elem_of_nil|].
  apply N.eqb_neq in E. rewrite not_elem_of_cons. split; [congruence|done].
Qed.

Lemma split_last_free (sep : char) (s : str) : sep ∉ Py.split_last sep s.
Proof.
  unfold Py.split_last. rewrite list_elem_of_In, <- in_rev, <- list_elem_of_In.
  apply before_sep_free.
Qed.

Lemma output_name_flat (entry : Entry) : 47 ∉ output_name entry.
Proof.
  unfold output_name. rewrite !not_elem_of_app. repeat split.
  - intros H. pose proof (sanitize_no_special (path entry)) as F.
    rewrite Forall_forall in F. by apply F in H.
  - by intros [?|?%elem_of_nil]%elem_of_cons.
  - apply split_last_free.
Qed.

(** C2, as amended.  [_sanitize_filename] rewrites the path character by
    character: each of the nine characters of its class, the slash among
    them, becomes an underscore and every other character stays.  No
    slash is left, so the name [extract_by_mimetype] writes to is one
    flat segment under the output directory; [a:b?c.html] becomes
    [a_b_c.html] and [ns/sub/dir/page.html] becomes
    [ns_sub_dir_page.html]. *)
Theorem sanitize_filename_flattens (filename : str) (i : nat) (entry : Entry) :
  length (_sanitize_filename filename) = length filename
  /\ _sanitize_filename filename !! i
     = (fun c => if is_special c then 95 else c) <$> filename !! i
  /\ Forall (fun c => is_special c = false) (_sanitize_filename filename)
  /\ special_chars = lit "<>:" ++ [34] ++ lit "/\|?*"
  /\ (47 ∉ _sanitize_filename filename)
  /\ (47 ∉ output_name entry)
  /\ _sanitize_filename (lit "a:b?c.html") = lit "a_b_c.html"
  /\ _sanitize_filename (lit "ns/sub/dir/page.html")
     = lit "ns_sub_dir_page.html".
Proof.
  split; [apply sanitize_length|].
  split; [apply list_lookup_fmap|].
  split; [apply sanitize_no_special|].
  split; [reflexivity|].
  split.
  { intros H. pose proof (sanitize_no_special filename) as F.
    rewrite Forall_forall in F. by apply F in H. }
  split; [apply output_name_flat|].
  split; reflexivity.
Qed.

(** C2, the claim as stated fails: the two separators of
    [ns/sub/dir/page.html] do not survive sanitisation, and the entry is
    written to the single name [ns_sub_dir_page.html.html]. *)
Lemma sanitize_drops_separators :
  count_occ N.eq_dec (lit "ns/sub/dir/page.html") 47 = 3%nat
  /\ count_occ N.eq_dec (_sanitize_filename (lit "ns/sub/dir/page.html")) 47
     = 0%nat
  /\ extract_by_mimetype
       [mkEntry (lit "ns/sub/dir/page.html") (lit "t") (blit "x")]
       Sample.out None (lit "text/html")
     = Ok [mkWrite Sample.out (lit "ns_sub_dir_page.html.html")
                   (Text (lit "x"))].
Proof. repeat split; vm_compute; reflexivity. Qed.

(** ** Namespace arguments *)

Lemma extract_titles_loop_str es ns results :
  extract_titles_loop es (Some ns) results
  = Ok (results
        ++ map (fun e => (path e, title e))
               (List.filter (fun e => Py.startswith (path e) ns) es)).
Proof.
  revert results. induction es as [|e es IH]; intros results; simpl.
  - by rewrite app_nil_r.
  - rewrite IH. destruct (Py.startswith (path e) ns); simpl; [|done].
    by rewrite <- app_assoc.
Qed.

Lemma list_all_paths_loop_none es paths :
  list_all_paths_loop es None paths = Ok (paths ++ map path es).
Proof.
  revert paths. induction es as [|e es IH]; intros paths; simpl.
  - by rewrite app_nil_r.
  - rewrite IH. by rewrite <- app_assoc.
Qed.

(** C10.  [extract_titles] and [extract_all_text] hand their namespace
    argument to [startswith], which takes a string: with [None], the
    value [set_namespace] gives for [ALL], the call on an archive that
    has a first entry raises [TypeError] at that entry and lists
    nothing, while with a string the titles of the entries under it are
    returned.  [list_all_paths] tests for [None] first and returns the
    path of every entry. *)
Theorem none_namespace_type_error
    (entry : Entry) (zim : list Entry) (ns : str) :
  set_namespace zim (lit "ALL") = Ok None
  /\ extract_titles (entry :: zim) None = Raise TypeError
  /\ extract_all_text (entry :: zim) None = Raise TypeError
  /\ list_all_paths (entry :: zim) None = Ok (map path (entry :: zim))
  /\ extract_titles (entry :: zim) (Some ns)
     = Ok (map (fun e => (path e, title e))
               (List.filter (fun e => Py.startswith (path e) ns)
                            (entry :: zim))).
Proof.
  split; [reflexivity|].
  split; [reflexivity|].
  split; [reflexivity|].
  split.
  - unfold list_all_paths. by rewrite list_all_paths_loop_none.
  - unfold extract_titles. by rewrite extract_titles_loop_str.
Qed.

(** ** Namespace selection *)

(** C4, the code at the failing input.  For a registered key
    [set_namespace] returns the key's description, not its code: [a]
    gives [Article].  The extraction that takes the selector compares it
    with the first character of each path, so with [Article] it selects
    nothing, where the code [A] selects the pages.  The [ALL] and
    [UNKNOWN] branches return the values the extraction understands, and
    an unmatched key raises.  The input is upper-cased and the keys are
    not, so a discovered lower-case key is never matched. *)
Theorem set_namespace_returns_description :
  set_namespace Sample.archive (lit " a ") = Ok (Some (lit "Article"))
  /\ set_namespace Sample.archive (lit "z") = Ok (Some (lit "Unknown_Z"))
  /\ extract_by_mimetype [Sample.page] Sample.out (Some (lit "Article"))
                         (lit "text/html") = Ok []
  /\ extract_by_mimetype [Sample.page] Sample.out (Some (lit "A"))
                         (lit "text/html")
     = Ok [write_of Sample.out (lit "text/html") Sample.page]
  /\ set_namespace Sample.archive (lit " all") = Ok None
  /\ set_namespace Sample.archive (lit "Unknown ")
     = Ok (Some (lit "UNKNOWN"))
  /\ set_namespace Sample.archive (lit "Q")
     = Raise (ValueError (lit "Invalid namespace selected."))
  /\ get_namespaces [mkEntry (lit "z/x") (lit "x") []] !! lit "z"
     = Some (lit "Unknown_z")
  /\ set_namespace [mkEntry (lit "z/x") (lit "x") []] (lit "z")
     = Raise (ValueError (lit "Invalid namespace selected.")).
Proof. repeat split; vm_compute; reflexivity. Qed.

(** ** Decoding *)

Ltac use_tests :=
  repeat match goal with
         | H : ?b = _ |- context [?b] => rewrite H
         end.

Ltac sublist_step H :=
  first [ exact H
        | apply sublist_cons; exact H
        | do 2 apply sublist_cons; exact H
        | do 3 apply sublist_cons; exact H
        | do 4 apply sublist_cons; exact H ].

Lemma decode_ignore_kept_len (n : nat) (data : list Byte.byte) :
  (length data <= n)%nat ->
  exists s kept,
    Py.decode_utf8 Py.Ignore data = Ok s
    /\ kept `sublist_of` data
    /\ Py.decode_utf8 Py.Strict kept = Ok s.
Proof.
  revert data. induction n as [|n IH]; intros data Hlen.
  { destruct data; simpl in Hlen; [|lia]. by exists [], []. }
  destruct data as [|x1 r1]; [by exists [], []|].
  cbn [Py.decode_utf8]; cbv zeta.
  repeat case_match; subst; simpl in Hlen;
    lazymatch goal with
    | |- context [Py.on_error Py.Ignore (Ok [])] =>
        exists [], []; split; [reflexivity|];
        split; [apply sublist_nil_l|reflexivity]
    | |- context [Py.on_error Py.Ignore (Py.decode_utf8 Py.Ignore ?r)] =>
        destruct (IH r) as (s' & kept' & E & Hsub & Hstrict); [simpl; lia|];
        exists s', kept'; unfold Py.on_error; rewrite E;
        split; [reflexivity|]; split; [sublist_step Hsub|exact Hstrict]
    | |- context [Py.emit ?c (Py.decode_utf8 Py.Ignore ?r)] =>
        destruct (IH r) as (s' & kept' & E & Hsub & Hstrict); [simpl; lia|];
        rewrite E; cbn [Py.emit rbind];
        lazymatch goal with
        | |- context [_ `sublist_of` ?y1 :: ?y2 :: ?y3 :: ?y4 :: r] =>
            exists (c :: s'), (y1 :: y2 :: y3 :: y4 :: kept')
        | |- context [_ `sublist_of` ?y1 :: ?y2 :: ?y3 :: r] =>
            exists (c :: s'), (y1 :: y2 :: y3 :: kept')
        | |- context [_ `sublist_of` ?y1 :: ?y2 :: r] =>
            exists (c :: s'), (y1 :: y2 :: kept')
        | |- context [_ `sublist_of` ?y1 :: r] =>
            exists (c :: s'), (y1 :: kept')
        end;
        split; [reflexivity|];
        split; [by repeat apply sublist_skip|];
        cbn [Py.decode_utf8]; cbv zeta; use_tests;
        reflexivity
    end.
Qed.

Lemma decode_ignore_total (data : list Byte.byte) :
  Py.decode_utf8 Py.Ignore data = Ok (decoded data).
Proof.
  destruct (decode_ignore_kept_len (length data) data) as (s & _ & E & _);
    [lia|].
  unfold decoded. by rewrite E.
Qed.

Lemma decode_ignore_kept (data : list Byte.byte) :
  exists kept,
    kept `sublist_of` data /\ Py.decode_utf8 Py.Strict kept = Ok (decoded data).
Proof.
  destruct (decode_ignore_kept_len (length data) data)
    as (s & kept & E & Hsub & Hstrict); [lia|].
  exists kept. unfold decoded. by rewrite E.
Qed.

Lemma decode_strict_ignore_len (n : nat) (data : list Byte.byte) (s : str) :
  (length data <= n)%nat ->
  Py.decode_utf8 Py.Strict data = Ok s ->
  Py.decode_utf8 Py.Ignore data = Ok s.
Proof.
  revert data s. induction n as [|n IH]; intros data s Hlen.
  { destruct data; simpl in Hlen; [done|lia]. }
  destruct data as [|x1 r1]; [done|].
  cbn [Py.decode_utf8]; cbv zeta.
  repeat case_match; subst; simpl in Hlen; try discriminate;
    lazymatch goal with
    | |- Py.emit ?c (Py.decode_utf8 Py.Strict ?r) = _ -> _ =>
        destruct (Py.decode_utf8 Py.Strict r) as [s'|] eqn:E;
          [|discriminate];
        rewrite (IH r s') by (simpl; first [lia|done]); done
    end.
Qed.

Lemma decode_strict_ignore (data : list Byte.byte) (s : str) :
  Py.decode_utf8 Py.Strict data = Ok s -> decoded data = s.
Proof.
  intros H. apply (decode_strict_ignore_len (length data)) in H; [|lia].
  unfold decoded. by rewrite H.
Qed.

(** ** Reading operations in closed form *)

Lemma extract_all_text_loop_str es ns outfile :
  extract_all_text_loop es (Some ns) outfile
  = Ok (outfile ++ concat (map (text_block ns) es)).
Proof.
  revert outfile. induction es as [|e es IH]; intros outfile;
    cbn [extract_all_text_loop map concat Py.startswith_arg rbind].
  - by rewrite app_nil_r.
  - unfold text_block at 1.
    destruct (Py.startswith (path e) ns); [|apply IH].
    rewrite decode_ignore_total; cbn [rbind].
    destruct (Py.re_search_body _); rewrite IH; [|done].
    by rewrite <- !app_assoc.
Qed.

Lemma get_entry_by_path_found (zim : list Entry) (url : str) :
  get_entry_by_path zim url
  = match find (fun e => bool_decide (path e = url)) zim with
    | Some entry => Ok entry
    | None => Raise KeyError
    end.
Proof. reflexivity. Qed.

Lemma has_path_find (zim : list Entry) (url : str) :
  has_path zim url
  = match find (fun e => bool_decide (path e = url)) zim with
    | Some _ => true
    | None => false
    end.
Proof.
  unfold has_path. induction zim as [|e zim IH]; [done|].
  cbn [existsb find]. by destruct (bool_decide (path e = url)).
Qed.

Lemma save_selected_articles_loop_blocks zim urls outfile :
  save_selected_articles_loop zim urls outfile
  = (if forallb (has_path zim) urls then Ok tt else Raise KeyError,
     outfile ++ concat (map (selected_block zim) (found_prefix zim urls))).
Proof.
  revert outfile. induction urls as [|u urls IH]; intros outfile;
    cbn [save_selected_articles_loop forallb found_prefix map concat].
  - by rewrite app_nil_r.
  - rewrite get_entry_by_path_found, has_path_find.
    destruct (find _ zim) as [e|] eqn:Hfind; cbn [andb map concat];
      [|by rewrite app_nil_r].
    unfold selected_block at 1. rewrite Hfind.
    rewrite decode_ignore_total.
    destruct (Py.re_search_body _); cbn [default]; rewrite IH;
      unfold selected_text, nl; by rewrite <- !app_assoc.
Qed.

Ltac lit_ne := let H := fresh in intros H; vm_compute in H; discriminate.

Lemma descriptions_not_unknown :
  map_Forall (fun _ d => Py.startswith d (lit "Unknown") = false)
             namespace_descriptions.
Proof.
  unfold namespace_descriptions. cbn [list_to_map foldr uncurry].
  repeat (apply map_Forall_insert_2; [reflexivity|]).
  apply map_Forall_empty.
Qed.

Lemma entry_selected_matches sel mimetype e c p :
  path e = c :: p ->
  entry_selected (selector_arg sel) mimetype e
  = selector_matches sel e
    && Py.startswith (_determine_mimetype (path e)) mimetype.
Proof.
  intros Hp.
  unfold entry_selected, selector_matches, get_namespace_description,
    Py.str_eqb.
  rewrite Hp. change (take 1 (c :: p)) with [c]. f_equal.
  destruct sel as [|code|]; cbn [selector_arg].
  - done.
  - rewrite (bool_decide_eq_false_2 ([code] = lit "UNKNOWN")) by lit_ne.
    cbn [andb]. rewrite orb_false_r.
    destruct (N.eqb_spec c code) as [->|Hne].
    + by rewrite bool_decide_eq_true_2.
    + rewrite bool_decide_eq_false_2; [done|congruence].
  - rewrite (bool_decide_eq_false_2 ([c] = lit "UNKNOWN")) by lit_ne.
    rewrite bool_decide_eq_true_2 by done. cbn [orb andb].
    destruct (namespace_descriptions !! [c]) as [d|] eqn:Hd.
    + rewrite bool_decide_eq_false_2 by done. cbn [default].
      by apply descriptions_not_unknown in Hd.
    + rewrite bool_decide_eq_true_2 by done. cbn [default].
      apply (startswith_app (lit "Unknown") (lit " (" ++ [c] ++ lit ")")).
Qed.

Lemma extract_by_mimetype_loop_filter es dir sel mimetype written :
  extract_by_mimetype_loop es dir (selector_arg sel) mimetype written
  = Ok (written
        ++ map (write_of dir mimetype)
               (List.filter (extraction_filter sel mimetype) es)).
Proof.
  revert written. induction es as [|e es IH]; intros written;
    cbn [extract_by_mimetype_loop List.filter].
  - by rewrite app_nil_r.
  - unfold extraction_filter at 1.
    destruct (path e) as [|c p] eqn:Hp.
    { rewrite bool_decide_eq_true_2 by done. apply IH. }
    rewrite bool_decide_eq_false_2 by done. cbn [negb andb].
    rewrite <- Hp.
    rewrite <- (entry_selected_matches sel mimetype e c p Hp).
    destruct (entry_selected _ _ e); [|apply IH].
    cbn [map]. unfold write_of at 1.
    destruct (binary_mode mimetype).
    + rewrite IH. by rewrite <- app_assoc.
    + rewrite decode_ignore_total; cbn [rbind]. rewrite IH.
      by rewrite <- app_assoc.
Qed.

Lemma extract_by_mimetype_loop_written es dir namespace mimetype written :
  extract_by_mimetype_loop es dir namespace mimetype written
  = Ok (written
        ++ map (write_of dir mimetype)
               (List.filter (written_entry namespace mimetype) es)).
Proof.
  revert written. induction es as [|e es IH]; intros written;
    cbn [extract_by_mimetype_loop List.filter].
  - by rewrite app_nil_r.
  - unfold written_entry at 1.
    destruct (path e) as [|c p] eqn:Hp; cbn [is_empty negb andb];
      [apply IH|].
    destruct (entry_selected _ _ e); [|apply IH].
    cbn [map]. unfold write_of at 1.
    destruct (binary_mode mimetype).
    + rewrite IH. by rewrite <- app_assoc.
    + rewrite decode_ignore_total; cbn [rbind]. rewrite IH.
      by rewrite <- app_assoc.
Qed.

Lemma extract_by_mimetype_written zim dir namespace mimetype :
  extract_by_mimetype zim dir namespace mimetype
  = Ok (map (write_of dir mimetype)
            (List.filter (written_entry namespace mimetype) zim)).
Proof.
  unfold extract_by_mimetype. by rewrite extract_by_mimetype_loop_written.
Qed.

(** ** The body search *)

Lemma split_first_unfold (pat s : str) :
  Py.split_first pat s
  = if Py.startswith s pat then Some ([], drop (length pat) s)
    else match s with
         | [] => None
         | c :: s' =>
             match Py.split_first pat s' with
             | Some (a, b) => Some (c :: a, b)
             | None => None
             end
         end.
Proof. by destruct s. Qed.

Lemma startswith_drop (s pat : str) :
  Py.startswith s pat = true -> s = pat ++ drop (length pat) s.
Proof.
  intros [rest ->]%startswith_prefix. by rewrite drop_app_length.
Qed.

Lemma split_first_sound (pat s a r : str) :
  Py.split_first pat s = Some (a, r) -> s = a ++ pat ++ r.
Proof.
  revert a. induction s as [|c s IH]; intros a; rewrite split_first_unfold.
  - destruct (Py.startswith [] pat) eqn:E; [|done].
    intros [= <- <-]. by apply startswith_drop.
  - destruct (Py.startswith (c :: s) pat) eqn:E.
    + intros [= <- <-]. by apply startswith_drop.
    + destruct (Py.split_first pat s) as [[a' r']|]; [|done].
      intros [= <- <-]. by rewrite (IH a' eq_refl) at 1.
Qed.

Lemma split_first_complete (pat pre rest : str) :
  exists a r,
    Py.split_first pat (pre ++ pat ++ rest) = Some (a, r)
    /\ rest `suffix_of` r.
Proof.
  induction pre as [|c pre IH]; cbn [app]; rewrite split_first_unfold.
  - rewrite startswith_app, drop_app_length. by eexists _, _.
  - destruct (Py.startswith _ pat) eqn:E.
    + eexists _, _. split; [done|].
      set (s := c :: pre ++ pat ++ rest).
      destruct (suffix_weak_total rest (drop (length pat) s) s)
        as [H|H]; [| |done|].
      * exists ((c :: pre) ++ pat). subst s. by rewrite <- app_assoc.
      * apply suffix_drop.
      * apply suffix_length_eq in H as ->; [done|].
        subst s. rewrite length_drop. cbn [length].
        rewrite !length_app. lia.
    + destruct IH as (a & r & -> & Hsuf). by eexists _, _.
Qed.

Lemma re_search_body_sound (s inner : str) :
  Py.re_search_body s = Some inner -> has_body_region s.
Proof.
  unfold Py.re_search_body.
  destruct (Py.split_first (lit "<body") s) as [[a r1]|] eqn:E1; [|done].
  destruct (Py.split_first (lit ">") r1) as [[attrs r2]|] eqn:E2; [|done].
  destruct (Py.split_first (lit "</body>") r2) as [[body post]|] eqn:E3;
    [|done].
  intros [= <-]. exists a, attrs, body, post.
  apply split_first_sound in E1 as ->.
  apply split_first_sound in E2 as ->.
  by apply split_first_sound in E3 as ->.
Qed.

Lemma re_search_body_complete (s : str) :
  has_body_region s -> is_Some (Py.re_search_body s).
Proof.
  intros (pre & attrs & inner & post & ->). unfold Py.re_search_body.
  destruct (split_first_complete (lit "<body") pre
              (attrs ++ lit ">" ++ inner ++ lit "</body>" ++ post))
    as (a & r1 & -> & [k1 ->]).
  rewrite (app_assoc k1 attrs).
  destruct (split_first_complete (lit ">") (k1 ++ attrs)
              (inner ++ lit "</body>" ++ post))
    as (a2 & r2 & -> & [k2 ->]).
  rewrite (app_assoc k2 inner).
  destruct (split_first_complete (lit "</body>") (k2 ++ inner) post)
    as (a3 & r3 & -> & _).
  done.
Qed.

Lemma re_search_body_None (s : str) :
  Py.re_search_body s = None <-> ~ has_body_region s.
Proof.
  split.
  - intros E [x Hx]%re_search_body_complete. congruence.
  - intros H. destruct (Py.re_search_body s) eqn:E; [|done].
    by apply re_search_body_sound in E.
Qed.

Lemma contains_app (pre p rest : str) :
  Py.contains (pre ++ p ++ rest) p = true.
Proof.
  induction pre as [|c pre IH]; cbn [app].
  - destruct (p ++ rest) eqn:E; cbn [Py.contains]; rewrite <- E;
      by rewrite startswith_app.
  - cbn [Py.contains]. rewrite IH. apply orb_true_r.
Qed.

Lemma no_body_tag_no_region (s : str) :
  Py.contains s (lit "<body") = false -> ~ has_body_region s.
Proof.
  intros H (pre & attrs & inner & post & ->).
  by rewrite contains_app in H.
Qed.

(** ** The tag stripper *)

Lemma re_sub_tags_skip (n : nat) (s : str) :
  Py.re_sub_tags n s = Py.re_sub_tags 0 (drop n s).
Proof.
  revert n. induction s as [|c s IH]; intros [|n]; try reflexivity.
  cbn [Py.re_sub_tags drop]. apply IH.
Qed.

Lemma close_at_name (name rest : str) :
  Forall (fun x => x <> 60 /\ x <> 62) name ->
  Py.close_at (name ++ 62 :: rest) = Some (S (length name)).
Proof.
  induction 1 as [|x name [H60 H62] _ IH]; [reflexivity|].
  cbn [app Py.close_at length].
  apply N.eqb_neq in H60, H62. by rewrite H60, H62, IH.
Qed.

Lemma strip_tags_text (c : char) (s : str) :
  c <> 60 -> Py.strip_tags (c :: s) = c :: Py.strip_tags s.
Proof.
  intros H%N.eqb_neq. unfold Py.strip_tags. cbn [Py.re_sub_tags].
  by rewrite H.
Qed.

Lemma strip_tags_plain (s : str) : 60 ∉ s -> Py.strip_tags s = s.
Proof.
  induction s as [|c s IH]; [done|].
  intros [Hc Hs]%not_elem_of_cons.
  rewrite strip_tags_text by done. by rewrite IH.
Qed.

Lemma strip_tags_tag (c : char) (name rest : str) :
  c <> 60 ->
  Forall (fun x => x <> 60 /\ x <> 62) name ->
  Py.strip_tags (60 :: c :: name ++ 62 :: rest) = Py.strip_tags rest.
Proof.
  intros Hc%N.eqb_neq Hname. unfold Py.strip_tags.
  cbn [Py.re_sub_tags Py.tag_len N.eqb Pos.eqb].
  rewrite Hc, close_at_name by done. cbn [fmap option_fmap option_map].
  rewrite re_sub_tags_skip. cbn [drop].
  rewrite cons_middle, app_assoc.
  rewrite drop_app_length'; [done|].
  rewrite length_app. cbn [length]. lia.
Qed.

(** ** The reading operations *)

(** C3.  [save_selected_articles] goes through the requested paths in
    the order given and writes one block for each occurrence of a path
    the archive has, so a path asked for twice is written twice.  A
    path the archive does not have is not skipped: the lookup raises
    [KeyError], the call ends there, and the file holds the blocks of
    the paths that came before it only. *)
Theorem save_selected_articles_stops_at_missing_path
    (zim : list Entry) (urls : list str) :
  save_selected_articles zim urls
    = (if forallb (has_path zim) urls then Ok tt else Raise KeyError,
       concat (map (selected_block zim) (found_prefix zim urls)))
  /\ save_selected_articles Sample.archive
       [lit "I/c.jpg"; lit "missing"; lit "A/a.html"; lit "I/c.jpg"]
     = (Raise KeyError, lit "Title: c" ++ [10; 10] ++ lit "JPG" ++ [10; 10])
  /\ save_selected_articles Sample.archive
       [lit "I/c.jpg"; lit "A/a.html"; lit "I/c.jpg"]
     = (Ok tt,
        lit "Title: c" ++ [10; 10] ++ lit "JPG" ++ [10; 10]
        ++ lit "Title: Home" ++ [10; 10] ++ lit "Hi there" ++ [10; 10]
        ++ lit "Title: c" ++ [10; 10] ++ lit "JPG" ++ [10; 10]).
Proof.
  split.
  - unfold save_selected_articles.
    by rewrite save_selected_articles_loop_blocks.
  - split; vm_compute; reflexivity.
Qed.

(** C5.  An entry whose text has no body region is left out of what
    [extract_all_text] writes, as if it were not in the archive, while
    [save_selected_articles] asked for its path writes its title and
    the whole document with the tags stripped. *)
Theorem body_asymmetry
    (zim1 zim2 : list Entry) (entry : Entry) (ns : str)
    (Hnobody : ~ has_body_region (decoded (content entry)))
    (Hfound : get_entry_by_path (zim1 ++ entry :: zim2) (path entry)
              = Ok entry) :
  extract_all_text (zim1 ++ entry :: zim2) (Some ns)
    = extract_all_text (zim1 ++ zim2) (Some ns)
  /\ text_block ns entry = []
  /\ save_selected_articles (zim1 ++ entry :: zim2) [path entry]
     = (Ok tt,
        lit "Title: " ++ title entry ++ [10; 10]
        ++ Py.strip_tags (decoded (content entry)) ++ [10; 10]).
Proof.
  apply re_search_body_None in Hnobody.
  assert (Hblock : text_block ns entry = []).
  { unfold text_block. rewrite Hnobody. by destruct (Py.startswith _ _). }
  split; [|split; [done|]].
  - unfold extract_all_text. rewrite !extract_all_text_loop_str.
    rewrite !map_app, !concat_app. cbn [map concat].
    by rewrite Hblock.
  - unfold save_selected_articles.
    cbn [save_selected_articles_loop]. rewrite Hfound.
    by rewrite decode_ignore_total, Hnobody.
Qed.

Lemma body_asymmetry_witness :
  ~ has_body_region (decoded (content Sample.bare))
  /\ get_entry_by_path Sample.archive (path Sample.bare) = Ok Sample.bare
  /\ extract_all_text Sample.archive (Some (lit "A"))
     = extract_all_text
         [Sample.page; Sample.png; Sample.jpg; Sample.odd; Sample.broken]
         (Some (lit "A"))
  /\ text_block (lit "A") Sample.bare = []
  /\ save_selected_articles Sample.archive [lit "A/bare"]
     = (Ok tt,
        lit "Title: Bare" ++ [10; 10] ++ lit "no body here" ++ [10; 10]).
Proof.
  assert (H1 : ~ has_body_region (decoded (content Sample.bare))).
  { apply no_body_tag_no_region. vm_compute. reflexivity. }
  assert (H2 : get_entry_by_path Sample.archive (path Sample.bare)
               = Ok Sample.bare).
  { vm_compute. reflexivity. }
  split; [exact H1|]. split; [exact H2|].
  destruct (body_asymmetry
              [Sample.page; Sample.png; Sample.jpg; Sample.odd]
              [Sample.broken] Sample.bare (lit "A") H1 H2)
    as (E1 & E2 & E3).
  split; [exact E1|]. split; [exact E2|exact E3].
Defined.

(** ** Bulk extraction *)

(** C6.  [extract_by_mimetype] writes one file for each entry with a
    non-empty path that the namespace selector matches and whose
    resolved mimetype starts with the given prefix, in archive order,
    and no file for any other entry.  The no-filter selector matches
    every entry, an exact code matches the entries whose first path
    character is the code, and the unknown selector matches the entries
    whose first path character is not a key of the registry.  With the
    prefix [image/] the png and the jpeg entry are written and the html
    page is not. *)
Theorem extract_by_mimetype_selects
    (zim : list Entry) (output_dir : str) (sel : Selector) (mimetype : str) :
  extract_by_mimetype zim output_dir (selector_arg sel) mimetype
    = Ok (map (write_of output_dir mimetype)
              (List.filter (extraction_filter sel mimetype) zim))
  /\ extract_by_mimetype [Sample.page; Sample.png; Sample.jpg] Sample.out
                        None (lit "image/")
     = Ok [ mkWrite Sample.out (lit "I_b.png.png") (Binary (blit "PNG"));
            mkWrite Sample.out (lit "I_c.jpg.jpeg") (Binary (blit "JPG")) ]
  /\ extract_by_mimetype Sample.archive Sample.out (Some (lit "UNKNOWN"))
                        (lit "text/")
     = Ok [ mkWrite Sample.out (lit "Z_notes.css.css") (Text (lit "p{}")) ].
Proof.
  split.
  - unfold extract_by_mimetype.
    by rewrite extract_by_mimetype_loop_filter.
  - split; vm_compute; reflexivity.
Qed.

(** ** The codec *)

Lemma byte_of_to_N (x : Byte.byte) : Codec.byte_of (Byte.to_N x) = x.
Proof. unfold Codec.byte_of. by rewrite Byte.of_to_N. Qed.

Lemma to_N_byte_of (n : N) : n < 256 -> Byte.to_N (Codec.byte_of n) = n.
Proof.
  intros H. unfold Codec.byte_of.
  destruct (Byte.of_N n) as [b|] eqn:E.
  - by apply Byte.to_of_N.
  - apply Byte.of_N_None_iff in E. lia.
Qed.

Lemma split2 (a b : N) : b < 64 ->
  (a * 64 + b) / 64 = a /\ (a * 64 + b) mod 64 = b.
Proof.
  intros. rewrite (N.add_comm (a * 64)).
  rewrite N.div_add by lia. rewrite N.Div0.mod_add.
  rewrite N.div_small by lia. rewrite N.mod_small by lia. lia.
Qed.

Lemma split3 (a b c : N) : b < 64 -> c < 64 ->
  (a * 4096 + b * 64 + c) / 4096 = a
  /\ ((a * 4096 + b * 64 + c) / 64) mod 64 = b
  /\ (a * 4096 + b * 64 + c) mod 64 = c.
Proof.
  intros.
  assert (E : a * 4096 + b * 64 + c = (a * 64 + b) * 64 + c) by lia.
  rewrite E. destruct (split2 (a * 64 + b) c) as [-> ->]; [done|].
  destruct (split2 a b) as [Hd ->]; [done|].
  change 4096 with (64 * 64). rewrite <- N.Div0.div_div.
  destruct (split2 (a * 64 + b) c) as [-> _]; [done|]. by rewrite Hd.
Qed.

Lemma split4 (a b c d : N) : b < 64 -> c < 64 -> d < 64 ->
  (a * 262144 + b * 4096 + c * 64 + d) / 262144 = a
  /\ ((a * 262144 + b * 4096 + c * 64 + d) / 4096) mod 64 = b
  /\ ((a * 262144 + b * 4096 + c * 64 + d) / 64) mod 64 = c
  /\ (a * 262144 + b * 4096 + c * 64 + d) mod 64 = d.
Proof.
  intros.
  assert (E : a * 262144 + b * 4096 + c * 64 + d
              = (a * 64 + b) * 4096 + c * 64 + d) by lia.
  rewrite E. destruct (split3 (a * 64 + b) c d) as (E1 & -> & ->); try done.
  destruct (split2 a b) as [Hd Hm]; [done|].
  rewrite E1, Hm. change 262144 with (4096 * 64).
  rewrite <- N.Div0.div_div. by rewrite E1, Hd.
Qed.

Ltac bool_to_prop :=
  repeat match goal with
         | H : negb _ = false |- _ => apply negb_false_iff in H
         | H : negb _ = true |- _ => apply negb_true_iff in H
         | H : _ || _ = false |- _ => apply orb_false_iff in H as [? ?]
         | H : _ && _ = true |- _ => apply andb_true_iff in H as [? ?]
         | H : Py.is_cont _ = true |- _ => unfold Py.is_cont in H
         | H : (_ <? _) = true |- _ => apply N.ltb_lt in H
         | H : (_ <? _) = false |- _ => apply N.ltb_ge in H
         | H : (_ <=? _) = true |- _ => apply N.leb_le in H
         | H : (_ <=? _) = false |- _ => apply N.leb_gt in H
         | H : (_ =? _) = true |- _ => apply N.eqb_eq in H
         | H : (_ =? _) = false |- _ => apply N.eqb_neq in H
         | H : (if ?b then _ else _) = false |- _ => destruct b eqn:?
         end.

Ltac decide_tests :=
  repeat match goal with
         | |- context [?a <? ?b] =>
             first [ rewrite (proj2 (N.ltb_lt a b)) by lia
                   | rewrite (proj2 (N.ltb_ge a b)) by lia ]
         | |- context [?a <=? ?b] =>
             first [ rewrite (proj2 (N.leb_le a b)) by lia
                   | rewrite (proj2 (N.leb_gt a b)) by lia ]
         | |- context [?a =? ?b] =>
             first [ rewrite (proj2 (N.eqb_eq a b)) by lia
                   | rewrite (proj2 (N.eqb_neq a b)) by lia ]
         end.

Lemma enc1 (x1 : Byte.byte) :
  (Byte.to_N x1 <? 128) = true ->
  Codec.encode_char (Byte.to_N x1) = Some [x1].
Proof.
  intros H. unfold Codec.encode_char. by rewrite H, byte_of_to_N.
Qed.

Lemma enc2 (x1 x2 : Byte.byte) :
  (Byte.to_N x1 <? 194) = false ->
  (Byte.to_N x1 <? 224) = true ->
  Py.is_cont (Byte.to_N x2) = true ->
  Codec.encode_char ((Byte.to_N x1 - 192) * 64 + (Byte.to_N x2 - 128))
  = Some [x1; x2].
Proof.
  intros. bool_to_prop.
  destruct (split2 (Byte.to_N x1 - 192) (Byte.to_N x2 - 128)) as [Hd Hm];
    [lia|].
  unfold Codec.encode_char. rewrite Hd, Hm. decide_tests. cbn [andb].
  replace (192 + (Byte.to_N x1 - 192)) with (Byte.to_N x1) by lia.
  replace (128 + (Byte.to_N x2 - 128)) with (Byte.to_N x2) by lia.
  by rewrite !byte_of_to_N.
Qed.

Lemma enc3 (x1 x2 x3 : Byte.byte) :
  (Byte.to_N x1 <? 224) = false ->
  (Byte.to_N x1 <? 240) = true ->
  negb (Py.is_cont (Byte.to_N x2))
  || (if Byte.to_N x2 <? 160 then Byte.to_N x1 =? 224
      else Byte.to_N x1 =? 237) = false ->
  Py.is_cont (Byte.to_N x3) = true ->
  Codec.encode_char ((Byte.to_N x1 - 224) * 4096
                     + (Byte.to_N x2 - 128) * 64 + (Byte.to_N x3 - 128))
  = Some [x1; x2; x3].
Proof.
  intros. bool_to_prop.
  all: destruct (split3 (Byte.to_N x1 - 224) (Byte.to_N x2 - 128)
                   (Byte.to_N x3 - 128)) as (Hd & Hm & Hl); [lia|lia|].
  all: unfold Codec.encode_char; rewrite Hd, Hm, Hl.
  all: match goal with
       | |- context [(55296 <=? ?c) && (?c <? 57344)] =>
           destruct ((55296 <=? c) && (c <? 57344)) eqn:Es;
             [exfalso; bool_to_prop; lia|]
       end.
  all: decide_tests.
  all: replace (224 + (Byte.to_N x1 - 224)) with (Byte.to_N x1) by lia;
    replace (128 + (Byte.to_N x2 - 128)) with (Byte.to_N x2) by lia;
    replace (128 + (Byte.to_N x3 - 128)) with (Byte.to_N x3) by lia;
    by rewrite !byte_of_to_N.
Qed.

Lemma enc4 (x1 x2 x3 x4 : Byte.byte) :
  (Byte.to_N x1 <? 240) = false ->
  (Byte.to_N x1 <? 245) = true ->
  negb (Py.is_cont (Byte.to_N x2))
  || (if Byte.to_N x2 <? 144 then Byte.to_N x1 =? 240
      else Byte.to_N x1 =? 244) = false ->
  negb (Py.is_cont (Byte.to_N x3)) = false ->
  Py.is_cont (Byte.to_N x4) = true ->
  Codec.encode_char ((Byte.to_N x1 - 240) * 262144
                     + (Byte.to_N x2 - 128) * 4096
                     + (Byte.to_N x3 - 128) * 64 + (Byte.to_N x4 - 128))
  = Some [x1; x2; x3; x4].
Proof.
  intros. bool_to_prop.
  all: destruct (split4 (Byte.to_N x1 - 240) (Byte.to_N x2 - 128)
                   (Byte.to_N x3 - 128) (Byte.to_N x4 - 128))
         as (Hd & Hm & Hl & Hk); [lia|lia|lia|].
  all: unfold Codec.encode_char; rewrite Hd, Hm, Hl, Hk; decide_tests;
    cbn [andb].
  all: replace (240 + (Byte.to_N x1 - 240)) with (Byte.to_N x1) by lia;
    replace (128 + (Byte.to_N x2 - 128)) with (Byte.to_N x2) by lia;
    replace (128 + (Byte.to_N x3 - 128)) with (Byte.to_N x3) by lia;
    replace (128 + (Byte.to_N x4 - 128)) with (Byte.to_N x4) by lia;
    by rewrite !byte_of_to_N.
Qed.

Lemma decode_strict_encode_len (n : nat) (data : list Byte.byte)
    (s : list N) (h : Py.errors) :
  (length data <= n)%nat ->
  Py.decode_utf8 Py.Strict data = Ok s ->
  Codec.encode_utf8 h s = Ok data.
Proof.
  revert data s. induction n as [|n IH]; intros data s Hlen.
  { destruct data; simpl in Hlen; [|lia]. by intros [= <-]. }
  destruct data as [|x1 r1]; [by intros [= <-]|].
  cbn [Py.decode_utf8]; cbv zeta.
  repeat case_match; subst; simpl in Hlen; try discriminate;
    lazymatch goal with
    | |- Py.emit ?c (Py.decode_utf8 Py.Strict ?r) = _ -> _ =>
        destruct (Py.decode_utf8 Py.Strict r) as [s'|] eqn:E;
          [|discriminate];
        intros [= <-]; cbn [Codec.encode_utf8];
        rewrite (IH r s') by (simpl; first [lia|done])
    end.
  all: first [ rewrite enc1 by (use_tests; done)
             | rewrite enc2 by (use_tests; done)
             | rewrite enc3 by (use_tests; done)
             | rewrite enc4 by (use_tests; done) ];
    reflexivity.
Qed.

Lemma decode_utf8_unfold (h : Py.errors) (data : list Byte.byte) :
  Py.decode_utf8 h data
  = match data with
    | [] => Ok []
    | x1 :: r1 =>
      let b1 := Byte.to_N x1 in
      if b1 <? 128 then Py.emit b1 (Py.decode_utf8 h r1)
      else if b1 <? 194 then Py.on_error h (Py.decode_utf8 h r1)
      else if b1 <? 224 then
        match r1 with
        | [] => Py.on_error h (Ok [])
        | x2 :: r2 =>
          let b2 := Byte.to_N x2 in
          if Py.is_cont b2
          then Py.emit ((b1 - 192) * 64 + (b2 - 128)) (Py.decode_utf8 h r2)
          else Py.on_error h (Py.decode_utf8 h r1)
        end
      else if b1 <? 240 then
        match r1 with
        | [] => Py.on_error h (Ok [])
        | x2 :: r2 =>
          let b2 := Byte.to_N x2 in
          if negb (Py.is_cont b2)
             || (if b2 <? 160 then b1 =? 224 else b1 =? 237)
          then Py.on_error h (Py.decode_utf8 h r1)
          else
            match r2 with
            | [] => Py.on_error h (Ok [])
            | x3 :: r3 =>
              let b3 := Byte.to_N x3 in
              if Py.is_cont b3
              then Py.emit ((b1 - 224) * 4096 + (b2 - 128) * 64 + (b3 - 128))
                           (Py.decode_utf8 h r3)
              else Py.on_error h (Py.decode_utf8 h r2)
            end
        end
      else if b1 <? 245 then
        match r1 with
        | [] => Py.on_error h (Ok [])
        | x2 :: r2 =>
          let b2 := Byte.to_N x2 in
          if negb (Py.is_cont b2)
             || (if b2 <? 144 then b1 =? 240 else b1 =? 244)
          then Py.on_error h (Py.decode_utf8 h r1)
          else
            match r2 with
            | [] => Py.on_error h (Ok [])
            | x3 :: r3 =>
              let b3 := Byte.to_N x3 in
              if negb (Py.is_cont b3) then Py.on_error h (Py.decode_utf8 h r2)
              else
                match r3 with
                | [] => Py.on_error h (Ok [])
                | x4 :: r4 =>
                  let b4 := Byte.to_N x4 in
                  if Py.is_cont b4
                  then Py.emit ((b1 - 240) * 262144 + (b2 - 128) * 4096
                                + (b3 - 128) * 64 + (b4 - 128))
                               (Py.decode_utf8 h r4)
                  else Py.on_error h (Py.decode_utf8 h r3)
                end
            end
        end
      else Py.on_error h (Py.decode_utf8 h r1)
    end.
Proof. by destruct data. Qed.

Lemma decode_encode_char (c : N) (seq rest : list Byte.byte) (h : Py.errors) :
  Codec.encode_char c = Some seq ->
  Py.decode_utf8 h (seq ++ rest) = Py.emit c (Py.decode_utf8 h rest).
Proof.
  unfold Codec.encode_char.
  pose proof (N.div_mod c 64 ltac:(lia)) as D1.
  pose proof (N.mod_lt c 64 ltac:(lia)) as M1.
  pose proof (N.div_mod (c / 64) 64 ltac:(lia)) as D2.
  pose proof (N.mod_lt (c / 64) 64 ltac:(lia)) as M2.
  pose proof (N.div_mod (c / 4096) 64 ltac:(lia)) as D3.
  pose proof (N.mod_lt (c / 4096) 64 ltac:(lia)) as M3.
  rewrite !N.Div0.div_div in D2, D3.
  change (64 * 64) with 4096 in *. change (4096 * 64) with 262144 in *.
  remember (c / 262144) as q3 eqn:Eq3.
  remember ((c / 4096) mod 64) as m3 eqn:Em3.
  remember (c / 4096) as q2 eqn:Eq2.
  remember ((c / 64) mod 64) as m2 eqn:Em2.
  remember (c / 64) as q1 eqn:Eq1. remember (c mod 64) as m1 eqn:Em1.
  clear Eq1 Em1 Eq2 Em2 Eq3 Em3.
  repeat case_match; try discriminate; intros [= <-]; bool_to_prop;
    cbn [app]; rewrite decode_utf8_unfold; cbv zeta;
    unfold Py.is_cont; rewrite ?to_N_byte_of by lia;
    decide_tests; cbn [andb orb negb];
    repeat match goal with
           | H : _ && _ = false |- _ => apply andb_false_iff in H as [?|?]
           end;
    bool_to_prop;
    repeat match goal with
           | |- context [if ?a <? ?b then _ else _] =>
               destruct (a <? b) eqn:?; bool_to_prop; decide_tests
           end;
    try (f_equal; lia).
Qed.

Lemma encode_strict_decode (s : list N) (data : list Byte.byte)
    (h : Py.errors) :
  Codec.encode_utf8 Py.Strict s = Ok data ->
  Py.decode_utf8 h data = Ok s.
Proof.
  revert data. induction s as [|c s IH]; intros data;
    cbn [Codec.encode_utf8]; [by intros [= <-]|].
  destruct (Codec.encode_char c) as [seq|] eqn:Ec; [|done].
  destruct (Codec.encode_utf8 Py.Strict s) as [r|]; [|done].
  cbn [rbind]. intros [= <-].
  rewrite (decode_encode_char _ _ _ _ Ec). by rewrite (IH r eq_refl).
Qed.

Lemma decode_strict_encode (data : list Byte.byte) (s : list N)
    (h : Py.errors) :
  Py.decode_utf8 Py.Strict data = Ok s -> Codec.encode_utf8 h s = Ok data.
Proof. apply (decode_strict_encode_len (length data)). lia. Qed.

(** One step of the decoder with [errors='ignore']: it takes the
    sequence of a code point, or it drops the bytes of one error. *)
Lemma decode_ignore_step (x1 : Byte.byte) (r1 : list Byte.byte) :
  (exists c seq rest,
      Codec.encode_char c = Some seq
      /\ x1 :: r1 = seq ++ rest
      /\ decoded (x1 :: r1) = c :: decoded rest)
  \/ (exists k,
        (1 <= k <= length (x1 :: r1))%nat
        /\ decoded (x1 :: r1) = decoded (drop k (x1 :: r1))
        /\ Forall continuation (drop 1 (take k (x1 :: r1)))).
Proof.
  pose proof (decode_ignore_total (x1 :: r1)) as E.
  rewrite decode_utf8_unfold in E. cbv zeta in E.
  repeat case_match; subst;
    rewrite ?decode_ignore_total in E; cbn [Py.on_error Py.emit rbind] in E;
    injection E as E.
  all: lazymatch type of E with
       | ?c :: decoded ?r = _ =>
           left; exists c;
           lazymatch goal with
           | |- context [?y1 :: ?y2 :: ?y3 :: ?y4 :: r = _] =>
               exists [y1; y2; y3; y4], r
           | |- context [?y1 :: ?y2 :: ?y3 :: r = _] =>
               exists [y1; y2; y3], r
           | |- context [?y1 :: ?y2 :: r = _] => exists [y1; y2], r
           | |- context [?y1 :: r = _] => exists [y1], r
           end;
           split; [|split; [reflexivity|by symmetry]];
           first [ apply enc1; by use_tests
                 | apply enc2; by use_tests
                 | apply enc3; by use_tests
                 | apply enc4; by use_tests ]
       | _ => right
       end.
  all: lazymatch type of E with
       | decoded ?r = _ =>
           lazymatch goal with
           | |- context [drop _ (?y1 :: ?y2 :: ?y3 :: r)] => exists 3%nat
           | |- context [drop _ (?y1 :: ?y2 :: r)] => exists 2%nat
           | |- context [drop _ (?y1 :: r)] => exists 1%nat
           end
       | [] = _ =>
           lazymatch goal with
           | |- context [drop _ [?y1; ?y2; ?y3]] => exists 3%nat
           | |- context [drop _ [?y1; ?y2]] => exists 2%nat
           | |- context [drop _ [?y1]] => exists 1%nat
           end
       end.
  all: cbn [length drop take]; split; [lia|]; split; [by symmetry|].
  all: repeat (apply Forall_cons; split; [|]); try by apply Forall_nil.
  all: unfold continuation; bool_to_prop; lia.
Qed.

Lemma decoded_keeps_char (c : char) (seq rest : list Byte.byte) :
  Codec.encode_char c = Some seq ->
  decoded (seq ++ rest) = c :: decoded rest.
Proof.
  intros Hseq. unfold decoded. rewrite (decode_encode_char _ _ _ _ Hseq).
  by rewrite decode_ignore_total.
Qed.

Lemma decoded_drops_error (bad : list Byte.byte) :
  bad <> [] -> ~ starts_with_char bad ->
  exists k,
    (1 <= k <= length bad)%nat
    /\ decoded bad = decoded (drop k bad)
    /\ Forall continuation (drop 1 (take k bad)).
Proof.
  intros Hbad Hnot. destruct bad as [|x1 r1]; [done|].
  destruct (decode_ignore_step x1 r1)
    as [(c' & seq' & rest' & Hc & Hd & _)|Hskip]; [|exact Hskip].
  exfalso. apply Hnot. by exists c', seq', rest'.
Qed.

Lemma ff_starts_no_char (rest : list Byte.byte) :
  ~ starts_with_char (Byte.xff :: rest).
Proof.
  intros (c & seq & rest' & Hc & Hd).
  pose proof (decode_encode_char c seq [] Py.Strict Hc) as E.
  rewrite app_nil_r in E. cbn [Py.emit rbind] in E.
  destruct seq as [|y1 seq]; [vm_compute in E; discriminate|].
  injection Hd as <- _. rewrite decode_utf8_unfold in E.
  vm_compute in E. discriminate.
Qed.

(** ** Content that is not valid UTF-8 *)

(** C8, as amended.  The text-producing operations decode with
    [errors='ignore'].  Decoding always returns.  Where the bytes begin
    with the sequence of a code point the decoder takes that code
    point and goes on after it, so every well-formed sequence it meets
    is kept; where they do not, it drops the first byte and the
    continuation bytes it had accepted after it, puts nothing in their
    place, and goes on.  What is returned is thus the strict decoding
    of the content with bytes taken out, and valid content is decoded as
    it is.  [extract_all_text], [save_selected_articles] and
    [extract_by_mimetype] work on that text; none of them is ended by
    the bytes of an entry: the first and the last always complete, and
    [save_selected_articles] ends early only at a path the archive
    does not have. *)
Theorem decode_ignores_invalid_bytes
    (data seq rest bad : list Byte.byte) (c : char)
    (zim : list Entry) (ns : str)
    (urls : list str) (output_dir : str) (namespace : option str)
    (mimetype : str)
    (Hseq : Codec.encode_char c = Some seq)
    (Hbad : bad <> []) (Hnot : ~ starts_with_char bad) :
  Py.decode_utf8 Py.Ignore data = Ok (decoded data)
  /\ decoded [] = []
  /\ decoded (seq ++ rest) = c :: decoded rest
  /\ (exists k,
        (1 <= k <= length bad)%nat
        /\ decoded bad = decoded (drop k bad)
        /\ Forall continuation (drop 1 (take k bad)))
  /\ (exists kept,
        kept `sublist_of` data
        /\ Py.decode_utf8 Py.Strict kept = Ok (decoded data))
  /\ match Py.decode_utf8 Py.Strict data with
     | Ok s => decoded data = s
     | Raise _ => True
     end
  /\ extract_all_text zim (Some ns) = Ok (concat (map (text_block ns) zim))
  /\ save_selected_articles zim urls
     = (if forallb (has_path zim) urls then Ok tt else Raise KeyError,
        concat (map (selected_block zim) (found_prefix zim urls)))
  /\ extract_by_mimetype zim output_dir namespace mimetype
     = Ok (map (write_of output_dir mimetype)
               (List.filter (written_entry namespace mimetype) zim)).
Proof.
  split; [apply decode_ignore_total|].
  split; [reflexivity|].
  split; [by apply decoded_keeps_char|].
  split; [by apply decoded_drops_error|].
  split; [apply decode_ignore_kept|].
  split.
  { destruct (Py.decode_utf8 Py.Strict data) eqn:E; [|done].
    by apply decode_strict_ignore. }
  split.
  { unfold extract_all_text. by rewrite extract_all_text_loop_str. }
  split.
  { unfold save_selected_articles.
    by rewrite save_selected_articles_loop_blocks. }
  apply extract_by_mimetype_written.
Qed.

Lemma decode_ignores_invalid_bytes_witness :
  Codec.encode_char 233 = Some [Byte.xc3; Byte.xa9]
  /\ [Byte.xff; Byte.x42] <> []
  /\ ~ starts_with_char [Byte.xff; Byte.x42]
  /\ decoded ([Byte.xc3; Byte.xa9] ++ content Sample.broken)
     = 233 :: decoded (content Sample.broken)
  /\ decoded (content Sample.broken) = [65; 66].
Proof.
  assert (H1 : Codec.encode_char 233 = Some [Byte.xc3; Byte.xa9])
    by (vm_compute; reflexivity).
  assert (H2 : [Byte.xff; Byte.x42] <> []) by done.
  assert (H3 : ~ starts_with_char [Byte.xff; Byte.x42])
    by apply ff_starts_no_char.
  split; [exact H1|]. split; [exact H2|]. split; [exact H3|].
  destruct (decode_ignores_invalid_bytes
              (content Sample.broken) [Byte.xc3; Byte.xa9]
              (content Sample.broken) [Byte.xff; Byte.x42] 233
              Sample.archive (lit "A") []
              Sample.out None (lit "text/html") H1 H2 H3)
    as (_ & _ & E & _).
  split; [exact E|]. vm_compute. reflexivity.
Defined.

(** C8, the claim as stated fails: the byte [0xff] between [A] and [B]
    is dropped, where replacement would put U+FFFD (65533) there; the
    article is written as [AB]. *)
Lemma invalid_bytes_are_dropped :
  content Sample.broken = [Byte.x41; Byte.xff; Byte.x42]
  /\ Py.decode_utf8 Py.Strict (content Sample.broken)
     = Raise UnicodeDecodeError
  /\ Py.decode_utf8 Py.Replace (content Sample.broken) = Ok [65; 65533; 66]
  /\ Py.decode_utf8 Py.Ignore (content Sample.broken) = Ok [65; 66]
  /\ save_selected_articles Sample.archive [lit "A/broken"]
     = (Ok tt, lit "Title: Broken" ++ [10; 10] ++ [65; 66] ++ [10; 10])
  /\ extract_by_mimetype [Sample.broken] Sample.out None (lit "text/html")
     = Ok [mkWrite Sample.out (lit "A_broken.html") (Text [65; 66])].
Proof. repeat split; vm_compute; reflexivity. Qed.

(** ** Building an archive *)

Lemma tmp_ne_output (output_file : str) :
  output_file ++ lit ".tmp" <> output_file.
Proof. by apply app_nonempty_ne. Qed.

Lemma backup_ne_output (output_file : str) :
  output_file ++ lit ".backup" <> output_file.
Proof. by apply app_nonempty_ne. Qed.

Lemma tmp_ne_backup (output_file : str) :
  output_file ++ lit ".tmp" <> output_file ++ lit ".backup".
Proof. by intros H%app_inv_head. Qed.

Ltac io_unfold :=
  unfold create_zim_file, try_finally, try_except_PermissionError,
    mbind, io_bind, mret, io_ret, run_creator, os.path_exists, os.rename,
    os.remove, shutil_move, time_sleep, log.

Ltac io_step := cbn [files rename_faults trace head tail].

Section Build.

Variable engine : Creator.
Variable output_file : str.
Variable articles : list Article.
Variable main_article_path : str.

Local Abbreviation temp_output_file := (output_file ++ lit ".tmp").
Local Abbreviation backup_file := (output_file ++ lit ".backup").
Local Abbreviation build := (create_zim_file engine output_file articles
                                         main_article_path).
Local Abbreviation staging w :=
  (engine temp_output_file (creator_calls articles main_article_path)
          (files w)).

(** The run of a call whose staging fails. *)
Lemma staging_failure_run (w : world) (e : exn)
    (left_behind : option (list Byte.byte)) :
  staging w = StagingFailed e left_behind ->
  build w
  = (Raise e,
     mkWorld (delete temp_output_file (files w)) (rename_faults w)
             (trace w ++ EvCreator temp_output_file
                :: match left_behind with
                   | Some _ => [EvRemove temp_output_file]
                   | None => []
                   end)).
Proof.
  intros Hfail. io_unfold. rewrite Hfail.
  destruct left_behind as [data|]; io_step.
  - rewrite lookup_insert_eq.
    rewrite bool_decide_eq_true_2 by done.
    io_step. rewrite lookup_insert_eq.
    by rewrite delete_insert_eq, <- app_assoc.
  - rewrite lookup_delete_eq.
    rewrite bool_decide_eq_false_2 by (by intros [? ?]).
    done.
Qed.

(** The run of a call whose first rename meets [PermissionError]. *)
Lemma retry_run (w : world) (archive old : list Byte.byte)
    (second : option exn) (rest : list (option exn)) :
  staging w = Staged archive ->
  files w !! output_file = Some old ->
  rename_faults w = Some PermissionError :: second :: rest ->
  build w
  = match second with
    | Some e2 =>
        (Raise e2,
         mkWorld (delete temp_output_file (files w)) rest
           (trace w
            ++ [ EvCreator temp_output_file;
                 EvRename output_file backup_file false;
                 EvSleep 2;
                 EvRename output_file backup_file false;
                 EvRemove temp_output_file ]))
    | None =>
        (Ok tt,
         mkWorld
           (<[output_file := archive]>
              (delete backup_file (delete temp_output_file (files w))))
           rest
           (trace w
            ++ [ EvCreator temp_output_file;
                 EvRename output_file backup_file false;
                 EvSleep 2;
                 EvRename output_file backup_file true;
                 EvMove temp_output_file output_file;
                 EvRemove backup_file ]))
    end.
Proof.
  intros Hstaged Hold Hfaults.
  pose proof (tmp_ne_output output_file) as Hto.
  pose proof (tmp_ne_backup output_file) as Htb.
  pose proof (backup_ne_output output_file) as Hbo.
  destruct w as [fs faults tr]. cbn [files rename_faults trace] in *. subst faults.
  io_unfold. io_step. rewrite Hstaged. io_step.
  rewrite lookup_insert_ne by done. rewrite Hold.
  rewrite bool_decide_eq_true_2 by done. io_step.
  destruct second as [e2|]; io_step.
  - rewrite lookup_insert_eq. rewrite bool_decide_eq_true_2 by done.
    io_step. rewrite lookup_insert_eq.
    rewrite delete_insert_eq. by rewrite <- !app_assoc.
  - rewrite lookup_insert_ne by done. rewrite Hold. io_step.
    rewrite lookup_insert_ne by done.
    rewrite lookup_delete_ne by done.
    rewrite lookup_insert_eq. io_step.
    rewrite lookup_insert_ne by done.
    rewrite lookup_delete_ne by done.
    rewrite lookup_insert_eq.
    rewrite bool_decide_eq_true_2 by done. io_step.
    rewrite lookup_insert_ne by done.
    rewrite lookup_delete_ne by done.
    rewrite lookup_insert_eq. io_step.
    rewrite lookup_delete_ne by done.
    rewrite lookup_insert_ne by done.
    rewrite lookup_delete_eq.
    rewrite bool_decide_eq_false_2 by (by intros [? ?]).
    rewrite <- !app_assoc. cbn [app]. do 2 f_equal.
    apply map_eq. intros k.
    destruct (decide (k = output_file)) as [->|?];
      [by rewrite lookup_delete_ne, !lookup_insert_eq by done|].
    destruct (decide (k = backup_file)) as [->|?];
      [by rewrite lookup_insert_ne, !lookup_delete_eq by done|].
    destruct (decide (k = temp_output_file)) as [->|?].
    { rewrite lookup_delete_ne, !lookup_insert_ne by done.
      rewrite lookup_delete_eq.
      by rewrite lookup_delete_ne, lookup_delete_eq by done. }
    rewrite lookup_delete_ne, lookup_insert_ne, lookup_delete_ne,
      lookup_insert_ne, lookup_delete_ne, lookup_insert_ne by done.
    by rewrite lookup_insert_ne, !lookup_delete_ne by done.
Qed.

(** The run of a call whose first rename meets another exception: the
    handler does not apply, and there is no second attempt. *)
Lemma other_error_run (w : world) (archive old : list Byte.byte)
    (e1 : exn) (rest : list (option exn)) :
  staging w = Staged archive ->
  files w !! output_file = Some old ->
  rename_faults w = Some e1 :: rest ->
  e1 <> PermissionError ->
  build w
  = (Raise e1,
     mkWorld (delete temp_output_file (files w)) rest
       (trace w
        ++ [ EvCreator temp_output_file;
             EvRename output_file backup_file false;
             EvRemove temp_output_file ])).
Proof.
  intros Hstaged Hold Hfaults Hne.
  pose proof (tmp_ne_output output_file) as Hto.
  destruct w as [fs faults tr]. cbn [files rename_faults trace] in *. subst faults.
  io_unfold. io_step. rewrite Hstaged. io_step.
  rewrite lookup_insert_ne by done. rewrite Hold.
  rewrite bool_decide_eq_true_2 by done. io_step.
  destruct e1; try done; io_step;
    rewrite lookup_insert_eq, bool_decide_eq_true_2 by done;
    io_step; rewrite lookup_insert_eq;
    by rewrite delete_insert_eq, <- !app_assoc.
Qed.

(** C1, as amended.  When the writer fails while staging into
    [output_file + ".tmp"], the call raises the writer's exception, the
    file at [output_file] is as it was, present or not, and no temp
    file is left: the clean-up removes what the writer left behind.
    The call never touches [output_file + ".backup"]: none is created,
    and one that existed before the call is still there.  Nothing else
    on the disk changes. *)
Theorem staging_failure_keeps_output
    (w : world) (e : exn) (left_behind : option (list Byte.byte))
    (Hfail : staging w = StagingFailed e left_behind) :
  (build w).1 = Raise e
  /\ files (build w).2 !! output_file = files w !! output_file
  /\ files (build w).2 !! temp_output_file = None
  /\ files (build w).2 !! backup_file = files w !! backup_file
  /\ files (build w).2 = delete temp_output_file (files w).
Proof.
  pose proof (tmp_ne_output output_file) as Hto.
  pose proof (tmp_ne_backup output_file) as Htb.
  rewrite (staging_failure_run _ _ _ Hfail). cbn [fst snd files].
  split; [done|].
  split; [by rewrite lookup_delete_ne|].
  split; [by rewrite lookup_delete_eq|].
  split; [by rewrite lookup_delete_ne|done].
Qed.

(** C9.  With a file at [output_file] and the archive staged, when the
    first [os.rename] to [output_file + ".backup"] raises
    [PermissionError] the call sleeps two seconds and renames once
    more, and that is the last attempt.  If the second attempt raises,
    its exception is what the call raises: the old file is still at
    [output_file], nothing was moved, and the clean-up has removed the
    temp file.  If it goes through, the staged archive is moved to
    [output_file] and the backup is removed. *)
Theorem rename_retried_exactly_once
    (w : world) (archive old : list Byte.byte)
    (second : option exn) (rest : list (option exn))
    (Hstaged : staging w = Staged archive)
    (Hold : files w !! output_file = Some old)
    (Hfaults : rename_faults w = Some PermissionError :: second :: rest) :
  rename_faults (build w).2 = rest
  /\ match second with
     | Some e2 =>
         (build w).1 = Raise e2
         /\ trace (build w).2
            = trace w
              ++ [ EvCreator temp_output_file;
                   EvRename output_file backup_file false;
                   EvSleep 2;
                   EvRename output_file backup_file false;
                   EvRemove temp_output_file ]
         /\ files (build w).2 !! output_file = Some old
         /\ files (build w).2 !! temp_output_file = None
         /\ files (build w).2 !! backup_file = files w !! backup_file
     | None =>
         (build w).1 = Ok tt
         /\ trace (build w).2
            = trace w
              ++ [ EvCreator temp_output_file;
                   EvRename output_file backup_file false;
                   EvSleep 2;
                   EvRename output_file backup_file true;
                   EvMove temp_output_file output_file;
                   EvRemove backup_file ]
         /\ files (build w).2 !! output_file = Some archive
         /\ files (build w).2 !! temp_output_file = None
         /\ files (build w).2 !! backup_file = None
     end.
Proof.
  pose proof (tmp_ne_output output_file) as Hto.
  pose proof (tmp_ne_backup output_file) as Htb.
  pose proof (backup_ne_output output_file) as Hbo.
  rewrite (retry_run _ _ _ _ _ Hstaged Hold Hfaults).
  destruct second as [e2|]; cbn [fst snd files rename_faults trace].
  - split; [done|]. split; [done|]. split; [done|].
    split; [by rewrite lookup_delete_ne|].
    split; [by rewrite lookup_delete_eq|].
    by rewrite lookup_delete_ne.
  - split; [done|]. split; [done|]. split; [done|].
    split; [by rewrite lookup_insert_eq|].
    split.
    + rewrite lookup_insert_ne, lookup_delete_ne by done.
      by rewrite lookup_delete_eq.
    + rewrite lookup_insert_ne by done. by rewrite lookup_delete_eq.
Qed.

End Build.

(** The amended C1 on the sample disk: the writer fails, the old archive
    stays. *)
Lemma staging_failure_keeps_output_witness :
  Sample.failing_writer (lit "o.zim" ++ lit ".tmp")
    (creator_calls [] (lit "A/a.html")) (files (Sample.disk []))
    = StagingFailed OSError (Some (blit "partial"))
  /\ (create_zim_file Sample.failing_writer (lit "o.zim") []
                      (lit "A/a.html") (Sample.disk [])).1
     = Raise OSError
  /\ files (create_zim_file Sample.failing_writer (lit "o.zim") []
                            (lit "A/a.html") (Sample.disk [])).2
       !! lit "o.zim"
     = Some (blit "OLD")
  /\ files (create_zim_file Sample.failing_writer (lit "o.zim") []
                            (lit "A/a.html") (Sample.disk [])).2
       !! (lit "o.zim" ++ lit ".tmp")
     = None.
Proof.
  assert (H : Sample.failing_writer (lit "o.zim" ++ lit ".tmp")
                (creator_calls [] (lit "A/a.html")) (files (Sample.disk []))
              = StagingFailed OSError (Some (blit "partial")))
    by reflexivity.
  split; [exact H|].
  destruct (staging_failure_keeps_output
              Sample.failing_writer (lit "o.zim") [] (lit "A/a.html")
              (Sample.disk []) OSError (Some (blit "partial")) H)
    as (E1 & E2 & E3 & _).
  split; [exact E1|]. split; [|exact E3].
  rewrite E2. vm_compute. reflexivity.
Defined.

(** C1, the claim as stated fails: a [.backup] file left by an earlier
    run is still on the disk after a call whose staging failed. *)
Lemma stale_backup_remains :
  files Sample.stale_disk !! lit "o.zim.backup" = Some (blit "STALE")
  /\ Sample.failing_writer (lit "o.zim.tmp")
       (creator_calls [] (lit "A/a.html")) (files Sample.stale_disk)
     = StagingFailed OSError (Some (blit "partial"))
  /\ (create_zim_file Sample.failing_writer (lit "o.zim") []
                      (lit "A/a.html") Sample.stale_disk).1
     = Raise OSError
  /\ files (create_zim_file Sample.failing_writer (lit "o.zim") []
                            (lit "A/a.html") Sample.stale_disk).2
       !! lit "o.zim.backup"
     = Some (blit "STALE")
  /\ files (create_zim_file Sample.failing_writer (lit "o.zim") []
                            (lit "A/a.html") Sample.stale_disk).2
       !! lit "o.zim.tmp"
     = None
  /\ files (create_zim_file Sample.failing_writer (lit "o.zim") []
                            (lit "A/a.html") Sample.stale_disk).2
       !! lit "o.zim"
     = Some (blit "OLD").
Proof. repeat split; vm_compute; reflexivity. Qed.

(** C9 on the sample disk, both attempts meeting [PermissionError]. *)
Lemma rename_retried_exactly_once_witness :
  Sample.working_writer (lit "o.zim" ++ lit ".tmp")
    (creator_calls [] (lit "A/a.html"))
    (files (Sample.disk [Some PermissionError; Some PermissionError]))
    = Staged (blit "NEW")
  /\ files (Sample.disk [Some PermissionError; Some PermissionError])
       !! lit "o.zim" = Some (blit "OLD")
  /\ rename_faults (Sample.disk [Some PermissionError; Some PermissionError])
     = [Some PermissionError; Some PermissionError]
  /\ (create_zim_file Sample.working_writer (lit "o.zim") []
        (lit "A/a.html")
        (Sample.disk [Some PermissionError; Some PermissionError])).1
     = Raise PermissionError
  /\ trace (create_zim_file Sample.working_writer (lit "o.zim") []
              (lit "A/a.html")
              (Sample.disk [Some PermissionError; Some PermissionError])).2
     = [ EvCreator (lit "o.zim.tmp");
         EvRename (lit "o.zim") (lit "o.zim.backup") false;
         EvSleep 2;
         EvRename (lit "o.zim") (lit "o.zim.backup") false;
         EvRemove (lit "o.zim.tmp") ].
Proof.
  set (w := Sample.disk [Some PermissionError; Some PermissionError]).
  assert (H1 : Sample.working_writer (lit "o.zim" ++ lit ".tmp")
                 (creator_calls [] (lit "A/a.html")) (files w)
               = Staged (blit "NEW")) by reflexivity.
  assert (H2 : files w !! lit "o.zim" = Some (blit "OLD"))
    by (vm_compute; reflexivity).
  assert (H3 : rename_faults w
               = Some PermissionError :: Some PermissionError :: [])
    by reflexivity.
  split; [exact H1|]. split; [exact H2|]. split; [exact H3|].
  destruct (rename_retried_exactly_once
              Sample.working_writer (lit "o.zim") [] (lit "A/a.html") w
              (blit "NEW") (blit "OLD") (Some PermissionError) [] H1 H2 H3)
    as (_ & E1 & E2 & _).
  split; [exact E1|]. rewrite E2. reflexivity.
Defined.


(* ===================================================================== *)
(** * Part III.  Further properties of the class                          *)
(* ===================================================================== *)

(** ** Namespace discovery *)

Lemma view_all_namespaces_snoc (zim : list Entry) (e : Entry) :
  view_all_namespaces (zim ++ [e])
  = view_namespace_step (view_all_namespaces zim) e.
Proof. unfold view_all_namespaces. by rewrite fold_left_app. Qed.

Lemma view_all_namespaces_lookup (zim : list Entry) (k d : str) :
  view_all_namespaces zim !! k = Some d
  <-> exists c,
        k = [c] /\ d = lit "Unknown_" ++ [c]
        /\ namespace_descriptions !! [c] = None
        /\ exists e, e ∈ zim /\ head (path e) = Some c.
Proof.
  induction zim as [|e zim IH] using rev_ind.
  - split; [done|]. intros (c & _ & _ & _ & e & He & _).
    by apply elem_of_nil in He.
  - rewrite view_all_namespaces_snoc. unfold view_namespace_step.
    destruct (path e) as [|c p] eqn:Hp.
    { rewrite IH. split; intros (c & -> & -> & Hc & e' & He & Hh);
        exists c; repeat split; try done.
      - exists e'. split; [|done]. apply elem_of_app. by left.
      - apply elem_of_app in He as [He|He%list_elem_of_singleton].
        + by exists e'.
        + subst e'. by rewrite Hp in Hh. }
    destruct (namespace_descriptions !! [c]) as [d'|] eqn:Hreg.
    { rewrite IH. split; intros (c' & -> & -> & Hc & e' & He & Hh);
        exists c'; repeat split; try done.
      - exists e'. split; [|done]. apply elem_of_app. by left.
      - apply elem_of_app in He as [He|He%list_elem_of_singleton].
        + by exists e'.
        + subst e'. rewrite Hp in Hh. injection Hh as <-. congruence. }
    destruct (decide (k = [c])) as [->|Hk].
    + rewrite lookup_insert_eq. split.
      * intros [= <-]. exists c. repeat split; try done.
        exists e. split; [apply elem_of_app; right; by left|by rewrite Hp].
      * by intros (c' & [= <-] & -> & _).
    + rewrite lookup_insert_ne by done. rewrite IH.
      split; intros (c' & -> & -> & Hc & e' & He & Hh);
        exists c'; repeat split; try done.
      * exists e'. split; [|done]. apply elem_of_app. by left.
      * apply elem_of_app in He as [He|He%list_elem_of_singleton].
        -- by exists e'.
        -- subst e'. rewrite Hp in Hh. injection Hh as <-. done.
Qed.

(** X1.  [view_all_namespaces] records exactly the first characters of
    the entry paths that are not keys of the registry, each under the
    label [Unknown_] followed by the character; entries with an empty
    path and entries of registered namespaces add nothing. *)
Theorem view_all_namespaces_spec (zim : list Entry) (k d : str) :
  view_all_namespaces zim !! k = Some d
  <-> exists c,
        k = [c] /\ d = lit "Unknown_" ++ [c]
        /\ namespace_descriptions !! [c] = None
        /\ exists e, e ∈ zim /\ head (path e) = Some c.
Proof. apply view_all_namespaces_lookup. Qed.

Lemma registry_keys_not_selectors :
  namespace_descriptions !! lit "ALL" = None
  /\ namespace_descriptions !! lit "UNKNOWN" = None.
Proof. split; vm_compute; reflexivity. Qed.

Lemma discovered_not_registered (zim : list Entry) (k d : str) :
  view_all_namespaces zim !! k = Some d ->
  namespace_descriptions !! k = None /\ length k = 1%nat
  /\ (length d = 9)%nat.
Proof.
  intros (c & -> & -> & Hc & _)%view_all_namespaces_lookup. done.
Qed.

(** X2.  Discovery never changes the registry: in the merged view of
    [get_namespaces] every registered code keeps its description, every
    discovered code has its label, and the two pseudo-selectors [ALL]
    and [UNKNOWN] are always present. *)
Theorem get_namespaces_extends_registry (zim : list Entry) :
  namespace_descriptions ⊆ get_namespaces zim
  /\ view_all_namespaces zim ⊆ get_namespaces zim
  /\ get_namespaces zim !! lit "ALL" = Some (lit "Select all namespaces")
  /\ get_namespaces zim !! lit "UNKNOWN"
     = Some (lit "Select all unknown namespaces").
Proof.
  destruct registry_keys_not_selectors as [HA HU].
  unfold get_namespaces. repeat split.
  - apply map_subseteq_spec. intros k d Hk.
    rewrite !lookup_insert_ne by (intros <-; congruence).
    rewrite lookup_union_r; [done|].
    destruct (view_all_namespaces zim !! k) eqn:E; [|done].
    apply discovered_not_registered in E as [E _]. congruence.
  - apply map_subseteq_spec. intros k d Hk.
    pose proof (discovered_not_registered _ _ _ Hk) as (_ & Hlen & _).
    rewrite !lookup_insert_ne by (by intros <-).
    by apply lookup_union_Some_l.
  - rewrite lookup_insert_ne by lit_ne. by rewrite lookup_insert_eq.
  - by rewrite lookup_insert_eq.
Qed.

Lemma description_unknown_test (namespace : str) :
  Py.startswith (get_namespace_description namespace) (lit "Unknown")
  = bool_decide (namespace_descriptions !! namespace = None).
Proof.
  unfold get_namespace_description.
  destruct (namespace_descriptions !! namespace) as [d|] eqn:E;
    cbn [default].
  - rewrite bool_decide_eq_false_2 by done.
    by apply descriptions_not_unknown in E.
  - rewrite bool_decide_eq_true_2 by done.
    apply (startswith_app (lit "Unknown") (lit " (" ++ namespace ++ lit ")")).
Qed.

(** X3.  [get_namespace_description] gives a text that starts with
    [Unknown] exactly for the codes that are not keys of the registry:
    no registered description starts that way, and the fall-back text
    always does.  This is the test the [UNKNOWN] selector of
    [extract_by_mimetype] relies on. *)
Theorem description_unknown_iff_unregistered (namespace : str) :
  Py.startswith (get_namespace_description namespace) (lit "Unknown")
  = bool_decide (namespace_descriptions !! namespace = None).
Proof. apply description_unknown_test. Qed.

(** ** What [set_namespace] returns, given to the extraction *)

Lemma descriptions_long :
  map_Forall (fun _ d => (2 <= length d)%nat) namespace_descriptions.
Proof.
  unfold namespace_descriptions. cbn [list_to_map foldr uncurry].
  repeat (apply map_Forall_insert_2; [vm_compute; lia|]).
  apply map_Forall_empty.
Qed.

Lemma extract_by_mimetype_loop_none_selected es dir namespace mimetype written :
  Forall (fun e => path e <> [] ->
                   entry_selected namespace mimetype e = false) es ->
  extract_by_mimetype_loop es dir namespace mimetype written = Ok written.
Proof.
  induction 1 as [|e es He _ IH]; cbn [extract_by_mimetype_loop]; [done|].
  destruct (path e) as [|c p] eqn:Hp; [done|].
  rewrite He by done. done.
Qed.

(** X4.  A value [set_namespace] returns for a registered or discovered
    key is a description of at least two characters, never a namespace
    code: given to [extract_by_mimetype] as the namespace it matches the
    first character of no path, and nothing is written.  Only the
    values returned for [ALL] and [UNKNOWN] select anything. *)
Theorem selected_description_extracts_nothing
    (zim zim' : list Entry) (selected_ns d output_dir mimetype : str)
    (Hset : set_namespace zim selected_ns = Ok (Some d))
    (Hd : d <> lit "UNKNOWN") :
  extract_by_mimetype zim' output_dir (Some d) mimetype = Ok [].
Proof.
  assert (Hlen : (2 <= length d)%nat).
  { revert Hset. unfold set_namespace, Py.str_eqb.
    repeat case_bool_decide; try done.
    { intros [= <-]. done. }
    destruct (get_namespaces zim !! _) as [d'|] eqn:E; [|done].
    intros [= <-]. unfold get_namespaces in E.
    rewrite !lookup_insert_ne in E by done.
    apply lookup_union_Some_raw in E as [E|[_ E]].
    - apply discovered_not_registered in E as (_ & _ & ->). lia.
    - by apply descriptions_long in E. }
  apply extract_by_mimetype_loop_none_selected, Forall_forall.
  intros e _ _. unfold entry_selected, Py.str_eqb.
  rewrite (bool_decide_eq_false_2 (take 1 (path e) = d)).
  - by rewrite (bool_decide_eq_false_2 (d = lit "UNKNOWN")).
  - intros <-. rewrite length_take in Hlen. lia.
Qed.

Lemma selected_description_extracts_nothing_witness :
  set_namespace Sample.archive (lit "i") = Ok (Some (lit "Images"))
  /\ lit "Images" <> lit "UNKNOWN"
  /\ extract_by_mimetype Sample.archive Sample.out (Some (lit "Images"))
                        (lit "image/")
     = Ok [].
Proof.
  assert (H1 : set_namespace Sample.archive (lit "i")
               = Ok (Some (lit "Images"))) by (vm_compute; reflexivity).
  assert (H2 : lit "Images" <> lit "UNKNOWN") by lit_ne.
  split; [exact H1|]. split; [exact H2|].
  exact (selected_description_extracts_nothing
           Sample.archive Sample.archive (lit "i") (lit "Images")
           Sample.out (lit "image/") H1 H2).
Defined.

(** ** Titles *)

Lemma save_titles_loop_blocks (results : list (str * str)) (outfile : str) :
  save_titles_loop results outfile
  = outfile
    ++ concat (map (fun r => lit "Title: " ++ r.2 ++ [10] ++ lit "URL: "
                             ++ r.1 ++ [10; 10]) results).
Proof.
  revert outfile. induction results as [|[u t] results IH]; intros outfile;
    cbn [save_titles_loop map concat fst snd].
  - by rewrite app_nil_r.
  - rewrite IH. unfold nl. cbn [app]. by rewrite <- !app_assoc.
Qed.

(** X5.  With a string namespace [save_titles_to_file] writes, for each
    entry whose path starts with the namespace, in archive order, the
    line [Title: ] with the title, the line [URL: ] with the path and
    an empty line, when there is at least one such entry; when there
    is none it raises [ValueError] ("No titles found.") and writes
    nothing, not an empty file. *)
Theorem save_titles_to_file_blocks (zim : list Entry) (ns : str) :
  save_titles_to_file zim (Some ns)
  = if existsb (fun e => Py.startswith (path e) ns) zim
    then Ok (concat (map (fun e => lit "Title: " ++ title e ++ [10]
                                   ++ lit "URL: " ++ path e ++ [10; 10])
                         (List.filter
                            (fun e => Py.startswith (path e) ns) zim)))
    else Raise (ValueError (lit "No titles found.")).
Proof.
  unfold save_titles_to_file, extract_titles.
  rewrite extract_titles_loop_str. cbn [rbind app].
  induction zim as [|e zim IH]; [done|].
  cbn [existsb List.filter].
  destruct (Py.startswith (path e) ns); cbn [orb map].
  - rewrite save_titles_loop_blocks. cbn [app map concat fst snd].
    by rewrite map_map.
  - apply IH.
Qed.

(** X6.  The window's Extract Titles handler passes [None] as the
    namespace, so it never reports success and never writes a file:
    with an empty field it warns; otherwise it raises whatever opening
    the archive raised, [ValueError] for an archive without entries and
    [TypeError] for every other archive. *)
Theorem run_extract_titles_never_succeeds
    (open_archive : str -> result (list Entry)) (zim_file output_file : str) :
  run_extract_titles open_archive zim_file output_file
  = if is_empty zim_file || is_empty output_file
    then Ok (Warning (lit "Input Error")
               (lit "Please select a ZIM file and specify an output file."),
             [])
    else match open_archive zim_file with
         | Raise e => Raise e
         | Ok [] => Raise (ValueError (lit "No titles found."))
         | Ok (_ :: _) => Raise TypeError
         end.
Proof.
  unfold run_extract_titles.
  destruct (is_empty zim_file || is_empty output_file); [done|].
  destruct (open_archive zim_file) as [[|e zim]|]; reflexivity.
Qed.

(** X7.  For a string namespace the paths [list_all_paths] lists are
    the paths of the pairs [extract_titles] returns, in the same order;
    the empty string selects every entry, which is what
    [list_all_paths] does for [None]. *)
Theorem listings_agree (zim : list Entry) (ns : str) :
  list_all_paths zim (Some ns)
    = rbind (extract_titles zim (Some ns)) (fun r => Ok (map fst r))
  /\ list_all_paths zim (Some []) = list_all_paths zim None
  /\ extract_titles zim (Some [])
     = Ok (map (fun e => (path e, title e)) zim).
Proof.
  assert (Hl : forall ns' es paths,
             list_all_paths_loop es (Some ns') paths
             = Ok (paths
                   ++ map path
                        (List.filter
                           (fun e => Py.startswith (path e) ns') es))).
  { intros ns' es. induction es as [|e es IH]; intros paths;
      cbn [list_all_paths_loop Py.startswith_arg rbind List.filter map].
    - by rewrite app_nil_r.
    - rewrite IH. destruct (Py.startswith (path e) ns'); [|done].
      cbn [map]. by rewrite <- app_assoc. }
  assert (Hall : forall (f : Entry -> bool) (es : list Entry),
             (forall e, f e = true) -> List.filter f es = es).
  { intros f es Hf. induction es as [|e es IH]; [done|].
    cbn [List.filter]. by rewrite Hf, IH. }
  unfold list_all_paths, extract_titles.
  rewrite !Hl, !extract_titles_loop_str, list_all_paths_loop_none.
  rewrite (Hall (fun e => Py.startswith (path e) []) zim) by done.
  cbn [rbind app]. by rewrite map_map.
Qed.

(** ** Text extraction *)

(** X8.  With a string namespace [extract_all_text] always completes,
    and its output is the concatenation, in archive order, of the
    stripped body of each selected entry followed by two newlines; so
    the output for two archives put one after the other is the two
    outputs put one after the other. *)
Theorem extract_all_text_compositional (zim1 zim2 : list Entry) (ns : str) :
  extract_all_text zim1 (Some ns)
    = Ok (concat (map (text_block ns) zim1))
  /\ extract_all_text (zim1 ++ zim2) (Some ns)
     = rbind (extract_all_text zim1 (Some ns)) (fun text1 =>
       rbind (extract_all_text zim2 (Some ns)) (fun text2 =>
       Ok (text1 ++ text2))).
Proof.
  unfold extract_all_text. rewrite !extract_all_text_loop_str.
  cbn [rbind app]. by rewrite map_app, concat_app.
Qed.

Lemma re_sub_tags_sublist (n : nat) (s : str) :
  Py.re_sub_tags n s `sublist_of` s.
Proof.
  revert n. induction s as [|c s IH]; intros n; [done|].
  cbn [Py.re_sub_tags]. destruct n as [|n].
  - destruct (c =? 60); [destruct (Py.tag_len s)|].
    + by apply sublist_cons.
    + by apply sublist_skip.
    + by apply sublist_skip.
  - by apply sublist_cons.
Qed.

(** X9.  Tag stripping only removes: whatever the document, the
    stripped text is a subsequence of it, so nothing is added or
    reordered and the result is never longer than the document. *)
Theorem strip_tags_only_removes (s : str) :
  Py.strip_tags s `sublist_of` s
  /\ (length (Py.strip_tags s) <= length s)%nat.
Proof.
  split; [apply re_sub_tags_sublist|].
  apply sublist_length, re_sub_tags_sublist.
Qed.

(** X10.  The scan of the tag stripper goes left to right: text before
    the first [<] is kept as it is, a tag made of [<], one character
    other than [<], a run without [<] or [>], and [>] is dropped whole,
    and the scan goes on after it. *)
Theorem strip_tags_drops_tag (pre name rest : str) (c : char)
    (Hpre : 60 ∉ pre) (Hc : c <> 60)
    (Hname : Forall (fun x => x <> 60 /\ x <> 62) name) :
  Py.strip_tags (pre ++ 60 :: c :: name ++ 62 :: rest)
  = pre ++ Py.strip_tags rest.
Proof.
  induction pre as [|x pre IH]; cbn [app].
  - by apply strip_tags_tag.
  - apply not_elem_of_cons in Hpre as [Hx Hpre].
    rewrite strip_tags_text by done. by rewrite IH.
Qed.

Lemma strip_tags_drops_tag_witness :
  (60 ∉ lit "Hi ")
  /\ 98 <> 60
  /\ Forall (fun x => x <> 60 /\ x <> 62) (lit " class=x")
  /\ Py.strip_tags (lit "Hi <b class=x>there")
     = lit "Hi there".
Proof.
  assert (H1 : 60 ∉ lit "Hi ").
  { intros H. vm_compute in H. by repeat apply elem_of_cons in H as [?|H];
      [ .. | apply elem_of_nil in H]. }
  assert (H2 : (98 : N) <> 60) by done.
  assert (H3 : Forall (fun x => x <> 60 /\ x <> 62) (lit " class=x")).
  { vm_compute. repeat constructor; done. }
  split; [exact H1|]. split; [exact H2|]. split; [exact H3|].
  exact (strip_tags_drops_tag (lit "Hi ") (lit " class=x") (lit "there")
                              98 H1 H2 H3).
Defined.

(** ** Mimetypes and the extraction wrappers *)

Lemma determine_mimetype_known (path : str) :
  _determine_mimetype path ∈ known_mimetypes.
Proof.
  unfold _determine_mimetype, known_mimetypes.
  repeat match goal with
         | |- context [if ?b || ?c then _ else _] => destruct b; cbn [orb]
         | |- context [if ?b then _ else _] => destruct b
         end;
    repeat first [ by apply list_elem_of_here | apply list_elem_of_further ].
Qed.

Lemma no_known_type_no_write
    (zim : list Entry) (output_dir : str) (namespace : option str)
    (mimetype : str) :
  forallb (fun t => negb (Py.startswith t mimetype)) known_mimetypes = true ->
  extract_by_mimetype zim output_dir namespace mimetype = Ok [].
Proof.
  intros Hnone.
  apply extract_by_mimetype_loop_none_selected, Forall_forall.
  intros e _ _. unfold entry_selected.
  rewrite forallb_forall in Hnone.
  specialize (Hnone (_determine_mimetype (path e))).
  rewrite negb_true_iff in Hnone. rewrite Hnone; [apply andb_false_r|].
  apply list_elem_of_In, determine_mimetype_known.
Qed.

(** X11.  [_determine_mimetype] only ever gives one of eleven types, so
    an extraction asked for a type none of them starts with writes no
    file, whatever the archive and the namespace.  [text/plain], which
    the window offers, is such a type. *)
Theorem unresolvable_mimetype_extracts_nothing
    (zim : list Entry) (output_dir : str) (namespace : option str)
    (mimetype : str)
    (Hnone : forallb (fun t => negb (Py.startswith t mimetype))
                     known_mimetypes = true) :
  extract_by_mimetype zim output_dir namespace mimetype = Ok [].
Proof. by apply no_known_type_no_write. Qed.

Lemma unresolvable_mimetype_extracts_nothing_witness :
  lit "text/plain" ∈ mimetype_combo
  /\ forallb (fun t => negb (Py.startswith t (lit "text/plain")))
             known_mimetypes = true
  /\ extract_by_mimetype Sample.archive Sample.out None (lit "text/plain")
     = Ok [].
Proof.
  assert (H : forallb (fun t => negb (Py.startswith t (lit "text/plain")))
                      known_mimetypes = true) by (vm_compute; reflexivity).
  split; [|split; [exact H|]].
  - unfold mimetype_combo.
    repeat first [ by apply list_elem_of_here | apply list_elem_of_further ].
  - exact (unresolvable_mimetype_extracts_nothing
             Sample.archive Sample.out None (lit "text/plain") H).
Defined.

(** X12.  Each of the four extraction wrappers completes and writes one
    file for each entry with a non-empty path that passes the selection
    test for its mimetype, in archive order; and the wrappers never
    share an entry: for a given namespace argument an entry passes the
    test of at most one of [extract_html_files], [extract_images],
    [extract_css_files] and [extract_js_files]. *)
Theorem extraction_wrappers_disjoint
    (zim : list Entry) (output_dir : str) (namespace : option str)
    (e : Entry) :
  extract_html_files zim output_dir namespace
    = Ok (map (write_of output_dir (lit "text/html"))
              (List.filter (written_entry namespace (lit "text/html")) zim))
  /\ extract_images zim output_dir namespace
     = Ok (map (write_of output_dir (lit "image/"))
               (List.filter (written_entry namespace (lit "image/")) zim))
  /\ extract_css_files zim output_dir namespace
     = Ok (map (write_of output_dir (lit "text/css"))
               (List.filter (written_entry namespace (lit "text/css")) zim))
  /\ extract_js_files zim output_dir namespace
     = Ok (map (write_of output_dir (lit "application/javascript"))
               (List.filter
                  (written_entry namespace (lit "application/javascript"))
                  zim))
  /\ (length
        (List.filter id
           [ written_entry namespace (lit "text/html") e;
             written_entry namespace (lit "image/") e;
             written_entry namespace (lit "text/css") e;
             written_entry namespace (lit "application/javascript") e ])
      <= 1)%nat.
Proof.
  repeat split; try apply extract_by_mimetype_written.
  unfold written_entry, entry_selected.
  pose proof (determine_mimetype_known (path e)) as H.
  destruct (negb _); cbn [andb List.filter length id]; [|lia].
  destruct (_ || _); cbn [andb List.filter length id]; [|lia].
  unfold known_mimetypes in H.
  repeat (apply elem_of_cons in H as [->|H]; [vm_compute; lia|]).
  by apply elem_of_nil in H.
Qed.

(** ** The build protocol in general *)

Ltac fs_simpl :=
  repeat first
    [ progress cbn [files rename_faults trace head tail fst snd]
    | rewrite lookup_insert_eq
    | rewrite lookup_delete_eq
    | rewrite lookup_insert_ne by done
    | rewrite lookup_delete_ne by done
    | rewrite bool_decide_eq_true_2 by done
    | rewrite bool_decide_eq_false_2 by (by intros [? ?])
    | match goal with
      | H : ?m !! ?k = _ |- context [?m !! ?k] => rewrite H
      end ].

Section BuildInvariants.

Variable engine : Creator.
Variable output_file : str.
Variable articles : list Article.
Variable main_article_path : str.

Local Abbreviation temp_output_file := (output_file ++ lit ".tmp").
Local Abbreviation backup_file := (output_file ++ lit ".backup").
Local Abbreviation build := (create_zim_file engine output_file articles
                                             main_article_path).
Local Abbreviation staging w :=
  (engine temp_output_file (creator_calls articles main_article_path)
          (files w)).

Lemma build_cases (w : world) :
  files (build w).2 !! temp_output_file = None
  /\ (forall k, k <> output_file -> k <> temp_output_file ->
                k <> backup_file ->
                files (build w).2 !! k = files w !! k)
  /\ match (build w).1 with
     | Ok _ =>
         exists archive,
           staging w = Staged archive
           /\ files (build w).2 !! output_file = Some archive
           /\ files (build w).2 !! backup_file = None
     | Raise _ =>
         files (build w).2 !! output_file = files w !! output_file
         /\ files (build w).2 !! backup_file = files w !! backup_file
     end.
Proof.
  pose proof (tmp_ne_output output_file) as Hto.
  pose proof (tmp_ne_backup output_file) as Htb.
  pose proof (backup_ne_output output_file) as Hbo.
  assert (Hot : output_file <> temp_output_file) by done.
  assert (Hbt : backup_file <> temp_output_file) by done.
  assert (Hob : output_file <> backup_file) by done.
  destruct w as [fs faults tr].
  io_unfold. cbn [files rename_faults trace].
  destruct (engine _ _ fs) as [archive|e left_behind] eqn:Hstage.
  2:{ destruct left_behind as [data|]; fs_simpl;
        (split; [done|]); (split; [intros k ? ? ?; by fs_simpl|]);
        by fs_simpl. }
  fs_simpl.
  destruct (fs !! output_file) as [old|] eqn:Hold; fs_simpl.
  2:{ destruct (fs !! backup_file) as [stale|] eqn:Hstale; fs_simpl;
        (split; [done|]); (split; [intros k ? ? ?; by fs_simpl|]);
        exists archive; by fs_simpl. }
  destruct faults as [|[e1|] rest]; fs_simpl.
  - split; [done|]. split; [intros k ? ? ?; by fs_simpl|].
    exists archive. by fs_simpl.
  - destruct e1; fs_simpl;
      try (split; [done|]; split; [intros k ? ? ?; by fs_simpl|];
           by fs_simpl).
    destruct rest as [|[e2|] rest']; fs_simpl;
      (split; [done|]); (split; [intros k ? ? ?; by fs_simpl|]);
      first [ by fs_simpl | exists archive; by fs_simpl ].
  - split; [done|]. split; [intros k ? ? ?; by fs_simpl|].
    exists archive. by fs_simpl.
Qed.

(** X13.  Whenever [create_zim_file] returns normally the writer had
    staged an archive and the disk is the one before the call with that
    archive at [output_file] and neither a [.tmp] nor a [.backup] file
    beside it, whether or not there was an old archive or a backup
    left by an earlier run; no other file is touched. *)
Theorem build_success_postcondition (w : world)
    (Hok : (build w).1 = Ok tt) :
  exists archive,
    staging w = Staged archive
    /\ files (build w).2
       = <[output_file := archive]>
           (delete backup_file (delete temp_output_file (files w))).
Proof.
  pose proof (tmp_ne_output output_file) as Hto.
  pose proof (backup_ne_output output_file) as Hbo.
  destruct (build_cases w) as (Htmp & Hframe & Hres).
  rewrite Hok in Hres. destruct Hres as (archive & Hst & Hout & Hback).
  exists archive. split; [done|]. apply map_eq. intros k.
  destruct (decide (k = output_file)) as [->|?];
    [by rewrite lookup_insert_eq|].
  rewrite lookup_insert_ne by done.
  destruct (decide (k = backup_file)) as [->|?];
    [by rewrite lookup_delete_eq|].
  rewrite lookup_delete_ne by done.
  destruct (decide (k = temp_output_file)) as [->|?];
    [by rewrite lookup_delete_eq|].
  rewrite lookup_delete_ne by done. by apply Hframe.
Qed.

(** X14.  Whenever [create_zim_file] raises, in a world where the
    writer and [os.rename] are the operations that can fail, the disk
    is the one before the call without the temp file: the old archive,
    a backup left by an earlier run and every other file are as they
    were, and nothing of the failed build remains. *)
Theorem build_failure_rolls_back (w : world) (e : exn)
    (Hraise : (build w).1 = Raise e) :
  files (build w).2 = delete temp_output_file (files w).
Proof.
  pose proof (tmp_ne_output output_file) as Hto.
  pose proof (tmp_ne_backup output_file) as Htb.
  destruct (build_cases w) as (Htmp & Hframe & Hres).
  rewrite Hraise in Hres. destruct Hres as (Hout & Hback).
  apply map_eq. intros k.
  destruct (decide (k = temp_output_file)) as [->|?];
    [by rewrite lookup_delete_eq|].
  rewrite lookup_delete_ne by done.
  destruct (decide (k = output_file)) as [->|?]; [done|].
  destruct (decide (k = backup_file)) as [->|?]; [done|].
  by apply Hframe.
Qed.

End BuildInvariants.

Lemma build_success_postcondition_witness :
  (create_zim_file Sample.working_writer (lit "o.zim") [] (lit "A/a.html")
                   Sample.stale_disk).1 = Ok tt
  /\ files (create_zim_file Sample.working_writer (lit "o.zim") []
                            (lit "A/a.html") Sample.stale_disk).2
     = <[lit "o.zim" := blit "NEW"]>
         (delete (lit "o.zim" ++ lit ".backup")
            (delete (lit "o.zim" ++ lit ".tmp") (files Sample.stale_disk))).
Proof.
  assert (H : (create_zim_file Sample.working_writer (lit "o.zim") []
                 (lit "A/a.html") Sample.stale_disk).1 = Ok tt)
    by (vm_compute; reflexivity).
  split; [exact H|].
  destruct (build_success_postcondition
              Sample.working_writer (lit "o.zim") [] (lit "A/a.html")
              Sample.stale_disk H) as (archive & Hst & ->).
  injection Hst as <-. reflexivity.
Defined.

Lemma build_failure_rolls_back_witness :
  (create_zim_file Sample.working_writer (lit "o.zim") [] (lit "A/a.html")
                   (Sample.disk [Some FileExistsError])).1
    = Raise FileExistsError
  /\ files (create_zim_file Sample.working_writer (lit "o.zim") []
                            (lit "A/a.html")
                            (Sample.disk [Some FileExistsError])).2
     = delete (lit "o.zim" ++ lit ".tmp")
              (files (Sample.disk [Some FileExistsError])).
Proof.
  assert (H : (create_zim_file Sample.working_writer (lit "o.zim") []
                 (lit "A/a.html") (Sample.disk [Some FileExistsError])).1
              = Raise FileExistsError)
    by (vm_compute; reflexivity).
  split; [exact H|].
  exact (build_failure_rolls_back
           Sample.working_writer (lit "o.zim") [] (lit "A/a.html")
           (Sample.disk [Some FileExistsError]) FileExistsError H).
Defined.


(** ** Bytes written by the extraction *)

Lemma translate_out_nl (s : str) : Codec.translate_out nl s = s.
Proof.
  induction s as [|c s IH]; [done|].
  unfold Codec.translate_out in *. cbn [flat_map]. rewrite IH.
  by destruct (N.eqb_spec c 10) as [->|_].
Qed.

Lemma kept_bytes_encoded (data : list Byte.byte) :
  Codec.encode_utf8 Py.Ignore (decoded data) = Ok (kept_bytes data)
  /\ kept_bytes data `sublist_of` data.
Proof.
  destruct (decode_ignore_kept data) as (kept & Hsub & Hdec).
  pose proof (decode_strict_encode _ _ Py.Ignore Hdec) as E.
  unfold kept_bytes. by rewrite E.
Qed.

(** X15.  Where the line separator is [\n], the file
    [extract_by_mimetype] writes for an entry holds, in binary mode,
    the bytes of the entry as they are, and in text mode the bytes of
    the entry without those of its encoding errors: going through the
    content, the sequence of a code point is written as it is, and
    where no such sequence begins the first byte and the continuation
    bytes accepted after it are left out.  What is written is a
    subsequence of the content; no byte is added or changed. *)
Theorem extraction_writes_subsequence
    (output_dir mimetype : str) (entry : Entry)
    (c : char) (seq rest bad : list Byte.byte)
    (Hseq : Codec.encode_char c = Some seq)
    (Hbad : bad <> []) (Hnot : ~ starts_with_char bad) :
  written_bytes nl (w_data (write_of output_dir mimetype entry))
    = Ok (if binary_mode mimetype then content entry
          else kept_bytes (content entry))
  /\ kept_bytes (content entry) `sublist_of` content entry
  /\ kept_bytes [] = []
  /\ kept_bytes (seq ++ rest) = seq ++ kept_bytes rest
  /\ (exists k,
        (1 <= k <= length bad)%nat
        /\ kept_bytes bad = kept_bytes (drop k bad)
        /\ Forall continuation (drop 1 (take k bad))).
Proof.
  split.
  { unfold write_of. cbn [w_data].
    destruct (binary_mode mimetype); cbn [written_bytes]; [done|].
    unfold write_text. rewrite translate_out_nl.
    apply kept_bytes_encoded. }
  split; [apply kept_bytes_encoded|].
  split; [reflexivity|].
  split.
  { unfold kept_bytes at 1. rewrite (decoded_keeps_char _ _ _ Hseq).
    cbn [Codec.encode_utf8]. rewrite Hseq.
    by rewrite (proj1 (kept_bytes_encoded rest)). }
  destruct (decoded_drops_error bad Hbad Hnot) as (k & Hk & He & Hc).
  exists k. split; [done|]. split; [|done].
  unfold kept_bytes. by rewrite He.
Qed.

Lemma extraction_writes_subsequence_witness :
  Codec.encode_char 233 = Some [Byte.xc3; Byte.xa9]
  /\ [Byte.xff; Byte.x42] <> []
  /\ ~ starts_with_char [Byte.xff; Byte.x42]
  /\ written_bytes nl
       (w_data (write_of Sample.out (lit "text/html") Sample.broken))
     = Ok [Byte.x41; Byte.x42]
  /\ written_bytes nl
       (w_data (write_of Sample.out (lit "image/") Sample.broken))
     = Ok [Byte.x41; Byte.xff; Byte.x42]
  /\ kept_bytes ([Byte.xc3; Byte.xa9] ++ [Byte.xff; Byte.x42])
     = [Byte.xc3; Byte.xa9] ++ kept_bytes [Byte.xff; Byte.x42].
Proof.
  assert (H1 : Codec.encode_char 233 = Some [Byte.xc3; Byte.xa9])
    by (vm_compute; reflexivity).
  assert (H2 : [Byte.xff; Byte.x42] <> []) by done.
  assert (H3 : ~ starts_with_char [Byte.xff; Byte.x42])
    by apply ff_starts_no_char.
  split; [exact H1|]. split; [exact H2|]. split; [exact H3|].
  destruct (extraction_writes_subsequence Sample.out (lit "text/html")
              Sample.broken 233 _ [Byte.xff; Byte.x42] _ H1 H2 H3)
    as (E1 & _ & _ & E2 & _).
  split; [rewrite E1; vm_compute; reflexivity|].
  split; [vm_compute; reflexivity|exact E2].
Defined.

(** X16.  Where the line separator is [\n], an entry whose content is
    valid UTF-8 is written byte for byte by [extract_by_mimetype],
    whichever mode the mimetype argument selects. *)
Theorem extraction_lossless_on_valid
    (output_dir mimetype : str) (entry : Entry) (s : str)
    (Hvalid : Py.decode_utf8 Py.Strict (content entry) = Ok s) :
  written_bytes nl (w_data (write_of output_dir mimetype entry))
  = Ok (content entry).
Proof.
  unfold write_of. cbn [w_data].
  destruct (binary_mode mimetype); cbn [written_bytes]; [done|].
  unfold write_text. rewrite translate_out_nl.
  rewrite (decode_strict_ignore _ _ Hvalid).
  by apply decode_strict_encode.
Qed.

Lemma extraction_lossless_on_valid_witness :
  Py.decode_utf8 Py.Strict (content Sample.page)
    = Ok (lit "<html><body class=main>Hi <b>there</b></body></html>")
  /\ written_bytes nl
       (w_data (write_of Sample.out (lit "text/html") Sample.page))
     = Ok (content Sample.page).
Proof.
  assert (H : Py.decode_utf8 Py.Strict (content Sample.page)
              = Ok (lit "<html><body class=main>Hi <b>there</b></body></html>"))
    by (vm_compute; reflexivity).
  split; [exact H|].
  exact (extraction_lossless_on_valid Sample.out (lit "text/html")
           Sample.page _ H).
Defined.

(** ** Reading back a written file *)

Lemma universal_newlines_translate_out (linesep text : str) :
  linesep = nl \/ linesep = [13; 10] ->
  13 ∉ text ->
  Codec.universal_newlines (Codec.translate_out linesep text) = text.
Proof.
  intros Hsep. induction text as [|c text IH]; [done|].
  intros [Hc Htext]%not_elem_of_cons.
  unfold Codec.translate_out in *. cbn [flat_map].
  destruct (N.eqb_spec c 10) as [->|Hn].
  - destruct Hsep as [-> | ->]; cbn [app nl Codec.universal_newlines N.eqb
                                        Pos.eqb]; by rewrite IH.
  - cbn [app Codec.universal_newlines].
    assert (E : (c =? 13) = false) by (apply N.eqb_neq; congruence).
    rewrite E. by rewrite IH.
Qed.

(** X17.  [view_file] reads back what the class wrote: a text without
    carriage returns, written through [open(..., 'w',
    encoding='utf-8')] as [extract_all_text], [save_titles_to_file] and
    [save_selected_articles] do, is returned unchanged by [view_file]
    on that file, whether the platform's line separator is [\n] or
    [\r\n]. *)
Theorem view_file_reads_back
    (disk : gmap (list N) (list Byte.byte)) (file_path linesep text : str)
    (data : list Byte.byte)
    (Hsep : linesep = nl \/ linesep = [13; 10])
    (Hcr : 13 ∉ text)
    (Hwrite : write_text Py.Strict linesep text = Ok data) :
  view_file (<[file_path := data]> disk) file_path = Ok text.
Proof.
  unfold view_file, read_text. rewrite lookup_insert_eq.
  unfold write_text in Hwrite.
  rewrite (encode_strict_decode _ _ Py.Ignore Hwrite). cbn [rbind].
  by rewrite universal_newlines_translate_out.
Qed.

Lemma view_file_reads_back_witness :
  (nl = nl \/ nl = [13; 10])
  /\ (13 ∉ lit "Title: Home")
  /\ write_text Py.Strict nl (lit "Title: Home") = Ok (blit "Title: Home")
  /\ view_file (<[lit "titles.txt" := blit "Title: Home"]> ∅)
               (lit "titles.txt")
     = Ok (lit "Title: Home").
Proof.
  assert (H1 : nl = nl \/ nl = [13; 10]) by (by left).
  assert (H2 : 13 ∉ lit "Title: Home").
  { intros H%list_elem_of_In. vm_compute in H. intuition discriminate. }
  assert (H3 : write_text Py.Strict nl (lit "Title: Home")
               = Ok (blit "Title: Home")) by (vm_compute; reflexivity).
  split; [exact H1|]. split; [exact H2|]. split; [exact H3|].
  exact (view_file_reads_back ∅ (lit "titles.txt") nl (lit "Title: Home")
           (blit "Title: Home") H1 H2 H3).
Defined.

(** ** Archives built from a directory *)

Lemma read_text_total (data : list Byte.byte) :
  read_text data = Ok (Codec.universal_newlines (decoded data)).
Proof. unfold read_text. by rewrite decode_ignore_total. Qed.

Lemma collect_articles_map (sep : char) (walk : list walked_file)
    (articles : list Article) :
  collect_articles sep walk articles
  = Ok (articles ++ map (article_of sep) walk).
Proof.
  revert articles. induction walk as [|f walk IH]; intros articles;
    cbn [collect_articles map].
  - by rewrite app_nil_r.
  - rewrite read_text_total. cbn [rbind]. rewrite IH.
    by rewrite <- app_assoc.
Qed.

Lemma replace_char_app (old new : char) (a b : str) :
  replace_char old new (a ++ b)
  = replace_char old new a ++ replace_char old new b.
Proof. apply map_app. Qed.

Lemma replace_char_absent (old new : char) (s : str) :
  old ∉ s -> replace_char old new s = s.
Proof.
  induction s as [|c s IH]; [done|].
  intros [Hc Hs]%not_elem_of_cons. cbn [replace_char map].
  fold (replace_char old new s). rewrite IH by done.
  destruct (N.eqb_spec c old); [congruence|done].
Qed.

Lemma zim_path_ends_with_file (sep : char) (f : walked_file) :
  sep ∉ wf_file f ->
  exists pre, zim_path_of sep f = pre ++ [47] ++ wf_file f.
Proof.
  intros Hsep. unfold zim_path_of, relative_path.
  rewrite replace_char_app, (replace_char_absent _ _ (wf_file f)) by done.
  destruct (wf_dirs f) as [|d ds _] using rev_ind.
  - by exists (infer_namespace (wf_file f)).
  - rewrite map_app, concat_app. cbn [map concat].
    rewrite app_nil_r, !replace_char_app.
    cbn [replace_char map]. rewrite N.eqb_refl.
    fold (replace_char sep 47 d).
    fold (replace_char sep 47 (concat (map (fun d => d ++ [sep]) ds))).
    exists (infer_namespace (wf_file f) ++ lit "/"
            ++ replace_char sep 47 (concat (map (fun d => d ++ [sep]) ds))
            ++ replace_char sep 47 d).
    by rewrite <- !app_assoc.
Qed.

Lemma endswith_after_slash (pre file ext : str) :
  47 ∉ ext ->
  Py.endswith (pre ++ [47] ++ file) ext = Py.endswith file ext.
Proof.
  intros Hext. apply eq_true_iff_eq. rewrite !endswith_suffix. split.
  - intros Hs.
    assert (Hf : file `suffix_of` pre ++ [47] ++ file).
    { exists (pre ++ [47]). by rewrite <- app_assoc. }
    destruct (suffix_weak_total ext file _ Hs Hf) as [[k ->]|[k Hk]];
      [by exists k|].
    destruct k as [|x k _] using rev_ind; [exists []; by rewrite Hk|].
    exfalso. destruct Hs as [front Hfront]. subst ext.
    rewrite !app_assoc in Hfront.
    apply app_inv_tail in Hfront.
    apply (f_equal (@rev N)) in Hfront.
    rewrite !rev_app_distr in Hfront. cbn [rev app] in Hfront.
    injection Hfront as <- _. apply Hext.
    rewrite !elem_of_app. left. right. by left.
  - intros [front ->]. exists (pre ++ [47] ++ front).
    by rewrite <- !app_assoc.
Qed.

Lemma first_match_after_slash (rules : list (rule * str))
    (default pre file : str) :
  Forall (fun r => exists ext, r.1 = EndsWith ext /\ 47 ∉ ext) rules ->
  first_match rules default (pre ++ [47] ++ file)
  = first_match rules default file.
Proof.
  induction 1 as [|[r m] rules (ext & Hr & Hext) _ IH]; [done|].
  cbn [first_match]. cbn [fst] in Hr. subst r. cbn [rule_matches].
  by rewrite endswith_after_slash, IH.
Qed.

Ltac not_in_lit :=
  let H := fresh in
  intros H%list_elem_of_In; vm_compute in H; intuition discriminate.

Lemma extension_rules_no_slash :
  Forall (fun r : rule * str => exists ext, r.1 = EndsWith ext /\ 47 ∉ ext)
         (drop 1 read_rules)
  /\ Forall (fun r : rule * str => exists ext, r.1 = EndsWith ext /\ 47 ∉ ext)
            write_rules.
Proof.
  split; unfold read_rules, write_rules; cbn [drop app];
    repeat (apply Forall_cons; split;
            [eexists; split; [reflexivity|not_in_lit]|]);
    by apply Forall_nil.
Qed.

Lemma ends_exclusive (s a b : str) :
  Py.endswith s a = true -> Py.endswith s b = true ->
  Py.endswith a b || Py.endswith b a = true.
Proof.
  rewrite !endswith_suffix. intros Ha Hb.
  destruct (suffix_weak_total a b s Ha Hb) as [H|H];
    apply endswith_suffix in H; rewrite H; [apply orb_true_r|done].
Qed.

Lemma determine_on_built_path (pre file : str) :
  _determine_mimetype (pre ++ [47] ++ file)
  = if Py.startswith (pre ++ [47] ++ file) (lit "A/") then lit "text/html"
    else first_match (drop 1 read_rules) (lit "application/octet-stream")
                     file.
Proof.
  rewrite determine_mimetype_table. unfold read_rules at 1.
  cbn [first_match rule_matches].
  destruct (Py.startswith _ (lit "A/")); [done|].
  apply first_match_after_slash, extension_rules_no_slash.
Qed.

Ltac clash :=
  match goal with
  | H1 : Py.endswith ?s ?a = true, H2 : Py.endswith ?s ?b = true |- _ =>
      let X := fresh in
      pose proof (ends_exclusive s a b H1 H2) as X;
      vm_compute in X; discriminate X
  end.

(** X18.  For a file found by the directory walk, whose name holds no
    path separator, the namespace [create_zim_file_from_directory_auto]
    puts in front of its path agrees with both mimetype resolvers: the
    type the reader resolves for the path is the one the file's
    extension gives, the [A/] rule adding nothing; the namespace is the
    one that goes with that type ([A] for [text/html], [I] for images,
    [S] for style sheets and scripts, [V] for videos, [F] for the
    rest); the type the writer's item reports is the one its seven
    extension rules give the file name; and the namespace is always a
    registered one. *)
Theorem directory_namespace_matches_type (sep : char) (f : walked_file)
    (Hsep : sep ∉ wf_file f) :
  take 1 (zim_path_of sep f) = infer_namespace (wf_file f)
  /\ _determine_mimetype (zim_path_of sep f)
     = first_match (drop 1 read_rules) (lit "application/octet-stream")
                   (wf_file f)
  /\ infer_namespace (wf_file f)
     = namespace_of_type (_determine_mimetype (zim_path_of sep f))
  /\ MyItem.get_mimetype
       (MyItem.mk (a_title (article_of sep f)) (a_path (article_of sep f))
                  (a_content (article_of sep f)) None)
     = first_match write_rules (lit "application/octet-stream") (wf_file f)
  /\ is_Some (namespace_descriptions !! infer_namespace (wf_file f)).
Proof.
  destruct (zim_path_ends_with_file sep f Hsep) as [pre Hpre].
  assert (Hns : take 1 (zim_path_of sep f) = infer_namespace (wf_file f)).
  { unfold zim_path_of, infer_namespace.
    repeat match goal with
           | |- context [if ?b then _ else _] => destruct b
           end; reflexivity. }
  assert (HA : Py.startswith (zim_path_of sep f) (lit "A/")
               = Py.str_eqb (infer_namespace (wf_file f)) (lit "A")).
  { unfold zim_path_of, infer_namespace.
    repeat match goal with
           | |- context [if ?b then _ else _] => destruct b
           end; reflexivity. }
  assert (Hdet : _determine_mimetype (zim_path_of sep f)
                 = first_match (drop 1 read_rules)
                               (lit "application/octet-stream") (wf_file f)).
  { rewrite Hpre, determine_on_built_path, <- Hpre, HA.
    unfold infer_namespace, read_rules, write_rules.
    cbn [drop app first_match rule_matches].
    repeat match goal with
           | |- context [Py.endswith ?s ?e] =>
               destruct (Py.endswith s e) eqn:?; cbn [orb]
           end; reflexivity. }
  split; [exact Hns|]. split; [exact Hdet|]. split; [|split].
  - rewrite Hdet. unfold infer_namespace, read_rules, write_rules.
    cbn [drop app first_match rule_matches].
    repeat match goal with
           | |- context [Py.endswith ?s ?e] =>
               destruct (Py.endswith s e) eqn:?; cbn [orb]
           end; first [ reflexivity | clash ].
  - rewrite get_mimetype_table. cbn [MyItem._path article_of a_path].
    rewrite Hpre. apply first_match_after_slash, extension_rules_no_slash.
  - unfold infer_namespace.
    repeat match goal with
           | |- context [if ?b then _ else _] => destruct b
           end; by eexists.
Qed.

Lemma directory_namespace_matches_type_witness :
  (47 ∉ wf_file Site.logo)
  /\ zim_path_of 47 Site.logo = lit "I/img/logo.png"
  /\ _determine_mimetype (zim_path_of 47 Site.logo) = lit "image/png"
  /\ infer_namespace (wf_file Site.logo) = lit "I".
Proof.
  assert (H : 47 ∉ wf_file Site.logo) by not_in_lit.
  split; [exact H|]. split; [vm_compute; reflexivity|].
  destruct (directory_namespace_matches_type 47 Site.logo H)
    as (_ & E2 & E3 & _).
  split.
  - rewrite E2. vm_compute. reflexivity.
  - rewrite E3, E2. vm_compute. reflexivity.
Defined.

Lemma built_path_namespace (sep : char) (f : walked_file) :
  exists c, zim_path_of sep f = c :: 47 :: replace_char sep 47 (relative_path sep f)
            /\ is_Some (namespace_descriptions !! [c]).
Proof.
  unfold zim_path_of, infer_namespace.
  repeat match goal with
         | |- context [if ?b then _ else _] => destruct b
         end; eexists; (split; [reflexivity|by eexists]).
Qed.

(** X19.  [create_zim_file_from_directory_auto] builds the archive of
    one article per file of the walk, in walk order: reading the files
    never fails, since undecodable bytes are ignored.  Every path of the
    plan starts with a registered namespace code and a slash, so in an
    archive holding these paths namespace discovery finds no unknown
    namespace and an extraction with the [UNKNOWN] selector writes
    nothing. *)
Theorem directory_build_plan
    (engine : Creator) (sep : char) (walk : list walked_file)
    (output_file main_article_path : str) (w : world)
    (zim : list Entry) (output_dir mimetype : str)
    (Hzim : map path zim = map (zim_path_of sep) walk) :
  create_zim_file_from_directory_auto engine sep walk output_file
                                      main_article_path w
    = create_zim_file engine output_file (map (article_of sep) walk)
                      main_article_path w
  /\ map a_path (map (article_of sep) walk) = map path zim
  /\ view_all_namespaces zim = ∅
  /\ extract_by_mimetype zim output_dir (Some (lit "UNKNOWN")) mimetype
     = Ok [].
Proof.
  assert (Hreg : forall e, e ∈ zim ->
            exists c rest, path e = c :: 47 :: rest
                           /\ is_Some (namespace_descriptions !! [c])).
  { intros e He.
    assert (Hin : path e ∈ map (zim_path_of sep) walk).
    { rewrite <- Hzim. by apply list_elem_of_fmap_2. }
    apply list_elem_of_fmap in Hin as (f & -> & _).
    destruct (built_path_namespace sep f) as (c & -> & Hc). eauto. }
  split; [|split; [|split]].
  - unfold create_zim_file_from_directory_auto.
    by rewrite collect_articles_map.
  - by rewrite map_map, Hzim.
  - apply map_eq. intros k. rewrite lookup_empty.
    destruct (view_all_namespaces zim !! k) as [d|] eqn:E; [|done].
    apply view_all_namespaces_lookup
      in E as (c & -> & -> & Hc & e & He & Hhead).
    destruct (Hreg e He) as (c' & rest & Hp & [d' Hd']).
    rewrite Hp in Hhead. injection Hhead as <-. congruence.
  - apply extract_by_mimetype_loop_none_selected, Forall_forall.
    intros e He _.
    destruct (Hreg e He) as (c & rest & Hp & Hc).
    unfold entry_selected, Py.str_eqb. rewrite Hp.
    change (take 1 (c :: 47 :: rest)) with [c].
    rewrite (bool_decide_eq_false_2 ([c] = lit "UNKNOWN")) by lit_ne.
    rewrite description_unknown_test.
    rewrite (bool_decide_eq_false_2 (namespace_descriptions !! [c] = None)).
    + by rewrite andb_false_r.
    + destruct Hc as [d Hd]. congruence.
Qed.

Lemma directory_build_plan_witness :
  map path [mkEntry (lit "A/index.html") (lit "index") [];
            mkEntry (lit "I/img/logo.png") (lit "logo") [];
            mkEntry (lit "S/css/main/site.css") (lit "site") [];
            mkEntry (lit "F/.htaccess") (lit ".htaccess") []]
    = map (zim_path_of 47) Site.walk
  /\ map a_title (map (article_of 47) Site.walk)
     = [lit "index"; lit "logo"; lit "site"; lit ".htaccess"]
  /\ view_all_namespaces
       [mkEntry (lit "A/index.html") (lit "index") [];
        mkEntry (lit "I/img/logo.png") (lit "logo") [];
        mkEntry (lit "S/css/main/site.css") (lit "site") [];
        mkEntry (lit "F/.htaccess") (lit ".htaccess") []] = ∅.
Proof.
  set (zim := [mkEntry (lit "A/index.html") (lit "index") [];
               mkEntry (lit "I/img/logo.png") (lit "logo") [];
               mkEntry (lit "S/css/main/site.css") (lit "site") [];
               mkEntry (lit "F/.htaccess") (lit ".htaccess") []]).
  assert (H : map path zim = map (zim_path_of 47) Site.walk)
    by (vm_compute; reflexivity).
  split; [exact H|]. split; [vm_compute; reflexivity|].
  destruct (directory_build_plan Sample.working_writer 47 Site.walk
              (lit "o.zim") (lit "A/index.html") (Sample.disk []) zim
              Sample.out (lit "text/html") H) as (_ & _ & E & _).
  exact E.
Defined.

(** ** Titles of directory-built articles *)

Lemma after_first_app (sep : char) (pre r : str) :
  sep ∉ pre -> after_first sep (pre ++ sep :: r) = Some r.
Proof.
  induction pre as [|c pre IH]; cbn [app after_first].
  - by rewrite N.eqb_refl.
  - intros [Hc Hpre]%not_elem_of_cons.
    assert (E : (c =? sep) = false) by (apply N.eqb_neq; congruence).
    rewrite E. by apply IH.
Qed.

Lemma after_first_absent (sep : char) (s : str) :
  sep ∉ s -> after_first sep s = None.
Proof.
  induction s as [|c s IH]; [done|].
  intros [Hc Hs]%not_elem_of_cons. cbn [after_first].
  assert (E : (c =? sep) = false) by (apply N.eqb_neq; congruence).
  rewrite E. by apply IH.
Qed.

Lemma not_elem_of_rev (c : char) (s : str) : c ∉ s -> c ∉ rev s.
Proof. by rewrite !list_elem_of_In, <- in_rev. Qed.

Lemma rev_replicate (n : nat) (c : char) :
  rev (replicate n c) = replicate n c.
Proof.
  rewrite rev_alt. change (rev_append ?l []) with (reverse l).
  apply reverse_replicate.
Qed.

(** X20.  The title the directory build gives an article is the file
    name without its last extension.  A name that reads: a root with
    a character other than a dot, a dot, and a run without dots, gets
    the root, so [archive.tar.gz] gets [archive.tar]; a name that
    reads: dots, if any, and a run without dots, such as [README] or
    [.htaccess], is kept whole. *)
Theorem title_is_name_without_extension
    (root ext : str) (c : char) (n : nat)
    (Hext : 46 ∉ ext) (Hc : c ∈ root) (Hne : c <> 46) :
  splitext_root (root ++ 46 :: ext) = root
  /\ splitext_root (replicate n 46 ++ ext) = replicate n 46 ++ ext.
Proof.
  unfold splitext_root. split.
  - rewrite rev_app_distr. cbn [rev]. rewrite <- app_assoc. cbn [app].
    rewrite after_first_app by (by apply not_elem_of_rev).
    assert (Hex : existsb (fun c => negb (c =? 46)) (rev root) = true).
    { apply existsb_exists. exists c. split.
      - by rewrite <- in_rev, <- list_elem_of_In.
      - by apply negb_true_iff, N.eqb_neq. }
    by rewrite Hex, rev_involutive.
  - rewrite rev_app_distr, rev_replicate. destruct n as [|n].
    + cbn [replicate]. rewrite app_nil_r.
      by rewrite after_first_absent by (by apply not_elem_of_rev).
    + cbn [replicate].
      rewrite after_first_app by (by apply not_elem_of_rev).
      assert (Hex : existsb (fun c => negb (c =? 46)) (replicate n 46)
                    = false).
      { clear. induction n as [|n IH]; [done|]. cbn [replicate existsb].
        by rewrite IH. }
      by rewrite Hex.
Qed.

Lemma title_is_name_without_extension_witness :
  (46 ∉ lit "gz")
  /\ 97 ∈ lit "archive.tar"
  /\ 97 <> 46
  /\ splitext_root (lit "archive.tar.gz") = lit "archive.tar"
  /\ splitext_root (lit ".htaccess") = lit ".htaccess".
Proof.
  assert (H1 : 46 ∉ lit "gz") by not_in_lit.
  assert (H2 : 97 ∈ lit "archive.tar") by (vm_compute; apply list_elem_of_here).
  assert (H3 : (97 : N) <> 46) by done.
  split; [exact H1|]. split; [exact H2|]. split; [exact H3|].
  split.
  - exact (proj1 (title_is_name_without_extension
                    (lit "archive.tar") (lit "gz") 97 0 H1 H2 H3)).
  - vm_compute. reflexivity.
Defined.

(** ** Which body is taken *)

Lemma startswith_app_long (x y p : str) :
  (length p <= length x)%nat ->
  Py.startswith (x ++ y) p = Py.startswith x p.
Proof.
  revert x. induction p as [|c p IH]; intros x Hlen; [done|].
  destruct x as [|d x]; cbn [length] in Hlen; [lia|].
  cbn [app Py.startswith]. rewrite IH by lia. done.
Qed.

Lemma split_first_leftmost (pat a r : str) :
  pat <> [] ->
  Py.contains (a ++ removelast pat) pat = false ->
  Py.split_first pat (a ++ pat ++ r) = Some (a, r).
Proof.
  intros Hpat. induction a as [|c a IH]; intros Hfree;
    rewrite split_first_unfold.
  - cbn [app]. by rewrite startswith_app, drop_app_length.
  - assert (Hc : Py.contains ((c :: a) ++ removelast pat) pat
                 = Py.startswith ((c :: a) ++ removelast pat) pat
                   || Py.contains (a ++ removelast pat) pat) by done.
    rewrite Hc in Hfree. apply orb_false_iff in Hfree as [Hs Hrest].
    assert (Hs' : Py.startswith ((c :: a) ++ pat ++ r) pat = false).
    { rewrite (app_removelast_last 0 Hpat) at 1.
      rewrite <- (app_assoc (removelast pat)), (app_assoc (c :: a)).
      rewrite startswith_app_long; [done|].
      rewrite length_app. cbn [length].
      assert (length pat = S (length (removelast pat))).
      { rewrite (app_removelast_last 0 Hpat) at 1.
        rewrite length_app. cbn [length]. lia. }
      lia. }
    rewrite Hs'. cbn [app]. by rewrite (IH Hrest).
Qed.

Lemma contains_single (s : str) (c : char) :
  c ∉ s -> Py.contains (s ++ removelast [c]) [c] = false.
Proof.
  cbn [removelast]. rewrite app_nil_r.
  induction s as [|d s IH]; [done|].
  intros [Hd Hs]%not_elem_of_cons. cbn [Py.contains Py.startswith].
  rewrite IH by done.
  assert (E : (d =? c) = false) by (apply N.eqb_neq; congruence).
  by rewrite E.
Qed.

Lemma re_search_body_first (pre attrs inner post : str) :
  Py.contains (pre ++ lit "<bod") (lit "<body") = false ->
  62 ∉ attrs ->
  Py.contains (inner ++ lit "</body") (lit "</body>") = false ->
  Py.re_search_body
    (pre ++ lit "<body" ++ attrs ++ lit ">" ++ inner ++ lit "</body>" ++ post)
  = Some inner.
Proof.
  intros Hpre Hattrs Hinner. unfold Py.re_search_body.
  rewrite (split_first_leftmost (lit "<body") pre) by done.
  rewrite (split_first_leftmost (lit ">") attrs)
    by (done || by apply contains_single).
  by rewrite (split_first_leftmost (lit "</body>") inner) by done.
Qed.

(** X21.  Of a page that reads: some text without [<body], then
    [<body], attributes without [>], [>], an inner part without
    [</body>], then [</body>] and anything, [extract_all_text] writes
    the inner part with its tags stripped and two newlines, and
    [save_selected_articles] the same under the title: the body runs
    from the first [>] after the first [<body] to the first [</body>]
    after it, and what lies outside is not written. *)
Theorem first_body_is_extracted
    (entry : Entry) (ns pre attrs inner post : str)
    (Hns : Py.startswith (path entry) ns = true)
    (Hdoc : decoded (content entry)
            = pre ++ lit "<body" ++ attrs ++ lit ">" ++ inner
                  ++ lit "</body>" ++ post)
    (Hpre : Py.contains (pre ++ lit "<bod") (lit "<body") = false)
    (Hattrs : 62 ∉ attrs)
    (Hinner : Py.contains (inner ++ lit "</body") (lit "</body>") = false) :
  extract_all_text [entry] (Some ns)
    = Ok (Py.strip_tags inner ++ [10; 10])
  /\ save_selected_articles [entry] [path entry]
     = (Ok tt,
        lit "Title: " ++ title entry ++ [10; 10]
        ++ Py.strip_tags inner ++ [10; 10]).
Proof.
  pose proof (re_search_body_first pre attrs inner post Hpre Hattrs Hinner)
    as Hbody.
  rewrite <- Hdoc in Hbody. split.
  - unfold extract_all_text. rewrite extract_all_text_loop_str.
    cbn [map concat app]. unfold text_block. rewrite Hns, Hbody.
    by rewrite app_nil_r.
  - unfold save_selected_articles.
    cbn [save_selected_articles_loop]. unfold get_entry_by_path.
    cbn [find]. unfold Py.str_eqb. rewrite bool_decide_eq_true_2 by done.
    by rewrite decode_ignore_total, Hbody.
Qed.

Lemma first_body_is_extracted_witness :
  Py.startswith (path Sample.page) (lit "A") = true
  /\ decoded (content Sample.page)
     = lit "<html>" ++ lit "<body" ++ lit " class=main" ++ lit ">"
       ++ lit "Hi <b>there</b>" ++ lit "</body>" ++ lit "</html>"
  /\ Py.contains (lit "<html>" ++ lit "<bod") (lit "<body") = false
  /\ (62 ∉ lit " class=main")
  /\ Py.contains (lit "Hi <b>there</b>" ++ lit "</body") (lit "</body>")
     = false
  /\ extract_all_text [Sample.page] (Some (lit "A"))
     = Ok (lit "Hi there" ++ [10; 10])
  /\ save_selected_articles [Sample.page] [lit "A/a.html"]
     = (Ok tt, lit "Title: Home" ++ [10; 10] ++ lit "Hi there" ++ [10; 10]).
Proof.
  assert (H1 : Py.startswith (path Sample.page) (lit "A") = true)
    by (vm_compute; reflexivity).
  assert (H2 : decoded (content Sample.page)
               = lit "<html>" ++ lit "<body" ++ lit " class=main" ++ lit ">"
                 ++ lit "Hi <b>there</b>" ++ lit "</body>" ++ lit "</html>")
    by (vm_compute; reflexivity).
  assert (H3 : Py.contains (lit "<html>" ++ lit "<bod") (lit "<body") = false)
    by (vm_compute; reflexivity).
  assert (H4 : 62 ∉ lit " class=main") by not_in_lit.
  assert (H5 : Py.contains (lit "Hi <b>there</b>" ++ lit "</body")
                           (lit "</body>") = false)
    by (vm_compute; reflexivity).
  repeat (split; [assumption|]).
  destruct (first_body_is_extracted Sample.page (lit "A") _ _ _ _
              H1 H2 H3 H4 H5) as [E1 E2].
  split; [exact E1|exact E2].
Defined.

(** ** Reports of the window *)

(** X22.  The window's extraction handler reports success whenever the
    archive opens, whatever was written: with a type that none of the
    resolvable types starts with, such as the [text/plain] of its own
    list, it writes no file and still informs that the files were
    extracted. *)
Theorem run_extract_mimetype_reports_empty_success
    (open_archive : str -> result (list Entry))
    (zim_file output_dir mimetype : str) (zim : list Entry)
    (Hfields : is_empty zim_file || is_empty output_dir = false)
    (Hopen : open_archive zim_file = Ok zim)
    (Hnone : forallb (fun t => negb (Py.startswith t mimetype))
                     known_mimetypes = true) :
  run_extract_mimetype open_archive zim_file output_dir mimetype
  = Ok (Information (lit "Extract by MIME Type")
          (lit "Files of MIME type " ++ mimetype ++ lit " extracted to "
           ++ output_dir),
        []).
Proof.
  unfold run_extract_mimetype. rewrite Hfields, Hopen. cbn [rbind].
  by rewrite no_known_type_no_write.
Qed.

Lemma run_extract_mimetype_reports_empty_success_witness :
  is_empty (lit "a.zim") || is_empty Sample.out = false
  /\ (fun _ : list N => Ok Sample.archive) (lit "a.zim") = Ok Sample.archive
  /\ forallb (fun t => negb (Py.startswith t (lit "text/plain")))
             known_mimetypes = true
  /\ run_extract_mimetype (fun _ => Ok Sample.archive) (lit "a.zim")
                          Sample.out (lit "text/plain")
     = Ok (Information (lit "Extract by MIME Type")
             (lit "Files of MIME type text/plain extracted to out"),
           []).
Proof.
  assert (H1 : is_empty (lit "a.zim") || is_empty Sample.out = false)
    by reflexivity.
  assert (H2 : (fun _ : list N => Ok Sample.archive) (lit "a.zim")
               = Ok Sample.archive) by reflexivity.
  assert (H3 : forallb (fun t => negb (Py.startswith t (lit "text/plain")))
                       known_mimetypes = true) by (vm_compute; reflexivity).
  split; [exact H1|]. split; [exact H2|]. split; [exact H3|].
  exact (run_extract_mimetype_reports_empty_success
           (fun _ => Ok Sample.archive) (lit "a.zim") Sample.out
           (lit "text/plain") Sample.archive H1 H2 H3).
Defined.

(** ** A rename that fails for another reason *)

(** X23.  When the first [os.rename] of the old archive raises an
    exception other than [PermissionError], [create_zim_file] does not
    sleep and does not try again: it raises that exception, with the
    old archive still in place and the temp file removed. *)
Theorem rename_other_error_not_retried
    (engine : Creator) (output_file : str) (articles : list Article)
    (main_article_path : str) (w : world) (archive old : list Byte.byte)
    (e1 : exn) (rest : list (option exn))
    (Hstaged : engine (output_file ++ lit ".tmp")
                      (creator_calls articles main_article_path) (files w)
               = Staged archive)
    (Hold : files w !! output_file = Some old)
    (Hfaults : rename_faults w = Some e1 :: rest)
    (Hother : e1 <> PermissionError) :
  (create_zim_file engine output_file articles main_article_path w).1
    = Raise e1
  /\ trace (create_zim_file engine output_file articles
                            main_article_path w).2
     = trace w
       ++ [ EvCreator (output_file ++ lit ".tmp");
            EvRename output_file (output_file ++ lit ".backup") false;
            EvRemove (output_file ++ lit ".tmp") ]
  /\ files (create_zim_file engine output_file articles
                            main_article_path w).2 !! output_file
     = Some old.
Proof.
  rewrite (other_error_run _ _ _ _ _ _ _ _ _ Hstaged Hold Hfaults Hother).
  cbn [fst snd trace files]. repeat split.
  rewrite lookup_delete_ne; [done|apply tmp_ne_output].
Qed.

Lemma rename_other_error_not_retried_witness :
  Sample.working_writer (lit "o.zim" ++ lit ".tmp")
    (creator_calls [] (lit "A/a.html"))
    (files (Sample.disk [Some FileExistsError]))
    = Staged (blit "NEW")
  /\ files (Sample.disk [Some FileExistsError]) !! lit "o.zim"
     = Some (blit "OLD")
  /\ rename_faults (Sample.disk [Some FileExistsError])
     = [Some FileExistsError]
  /\ FileExistsError <> PermissionError
  /\ (create_zim_file Sample.working_writer (lit "o.zim") []
        (lit "A/a.html") (Sample.disk [Some FileExistsError])).1
     = Raise FileExistsError.
Proof.
  set (w := Sample.disk [Some FileExistsError]).
  assert (H1 : Sample.working_writer (lit "o.zim" ++ lit ".tmp")
                 (creator_calls [] (lit "A/a.html")) (files w)
               = Staged (blit "NEW")) by reflexivity.
  assert (H2 : files w !! lit "o.zim" = Some (blit "OLD"))
    by (vm_compute; reflexivity).
  assert (H3 : rename_faults w = Some FileExistsError :: []) by reflexivity.
  assert (H4 : FileExistsError <> PermissionError) by discriminate.
  split; [exact H1|]. split; [exact H2|]. split; [exact H3|].
  split; [exact H4|].
  destruct (rename_other_error_not_retried
              Sample.working_writer (lit "o.zim") [] (lit "A/a.html") w
              (blit "NEW") (blit "OLD") FileExistsError [] H1 H2 H3 H4)
    as (E & _).
  exact E.
Defined.
